(** * View components of the desktop Git client: a shallow embedding

  The TypeScript sources embedded here are

  - [app/src/ui/pull-request-quick-view.tsx]   (module [PullRequestQuickView])
  - [app/src/ui/changes/commit-message-avatar.tsx], which holds both the
    commit-author avatar (module [CommitMessageAvatar]) and the push/pull
    toolbar button (module [PushPullButton])
  - [app/src/ui/lib/popover.tsx], which holds both the popover primitive
    (module [Popover]) and the delete-remote-branch dialog
    (module [DeleteRemoteBranch]).

  Render methods become functions to a small virtual-DOM tree, event
  handlers become programs of a free monad over the calls they make, and
  running such a program yields the trace of calls in program order. *)

From Stdlib Require Import List String Ascii ZArith NArith Bool Lia.
From Stdlib Require Import DecimalString.
Import ListNotations.

Set Implicit Arguments.
Set Warnings "-register-all".

Open Scope string_scope.
Open Scope list_scope.

(* ================================================================= *)
(** ** JavaScript values *)

Module Js.

(** A JavaScript string is a sequence of UTF-16 code units. *)
Definition JsString := list N.

(** A source literal made of ASCII characters only. *)
Definition lit (s : string) : JsString :=
  map N_of_ascii (list_ascii_of_string s).

Definition JsString_eq_dec : forall x y : JsString, {x = y} + {x <> y} :=
  list_eq_dec N.eq_dec.

(** [a === b] on strings. *)
Definition strictEq (a b : JsString) : bool :=
  if JsString_eq_dec a b then true else false.

(** A value of type [T | null | undefined]. *)
Inductive Nullable (T : Type) : Type :=
| JsUndefined
| JsNull
| JsValue (v : T).
Arguments JsUndefined {T}.
Arguments JsNull {T}.

(** The code units [String.prototype.trim] strips: ECMAScript's WhiteSpace
    and LineTerminator productions. All of them lie in the basic plane, so
    each is one code unit. *)
Definition isWhiteSpace (c : N) : bool :=
  ((9 <=? c) && (c <=? 13)            (* TAB, LF, VT, FF, CR *)
   || (c =? 32)                        (* SP *)
   || (c =? 160)                       (* NBSP *)
   || (c =? 5760)                      (* U+1680 *)
   || ((8192 <=? c) && (c <=? 8202))   (* U+2000 .. U+200A *)
   || (c =? 8232) || (c =? 8233)       (* LS, PS *)
   || (c =? 8239)                      (* U+202F *)
   || (c =? 8287)                      (* U+205F *)
   || (c =? 12288)                     (* U+3000 *)
   || (c =? 65279))%N.                 (* U+FEFF *)

Fixpoint trimStart (s : JsString) : JsString :=
  match s with
  | [] => []
  | c :: rest => if isWhiteSpace c then trimStart rest else s
  end.

Definition trimEnd (s : JsString) : JsString :=
  rev (trimStart (rev s)).

(** [s.trim()] *)
Definition trim (s : JsString) : JsString :=
  trimEnd (trimStart s).

(** A string used as a condition. *)
Definition truthy (s : JsString) : bool :=
  match s with
  | [] => false
  | _ :: _ => true
  end.

(** [parts.join(sep)] *)
Fixpoint join (sep : JsString) (parts : list JsString) : JsString :=
  match parts with
  | [] => []
  | [p] => p
  | p :: rest => p ++ sep ++ join sep rest
  end.

(** *** Numbers that hold integers

    A JavaScript number is a double. The integers of magnitude up to
    [2^53] are all doubles, and a sum of doubles that is such an integer is
    computed exactly; beyond, a sum is rounded to the nearest double, ties
    to the even one. *)

Definition exactInteger (z : Z) : Prop := (- 2 ^ 53 <= z <= 2 ^ 53)%Z.

(** The double nearest to the integer [z], for a finite result (a
    magnitude below [2^1024]). Above [2^53] the doubles are the multiples
    of [2^e] with 53 significant bits. *)
Definition roundToDouble (z : Z) : Z :=
  if (Z.abs z <=? 2 ^ 53)%Z then z
  else
    let e := (Z.log2 (Z.abs z) - 52)%Z in
    let q := (Z.abs z / 2 ^ e)%Z in
    let r := (Z.abs z mod 2 ^ e)%Z in
    let half := (2 ^ (e - 1))%Z in
    let q' :=
      if ((half <? r) || ((r =? half) && Z.odd q))%Z then (q + 1)%Z else q in
    (Z.sgn z * (q' * 2 ^ e))%Z.

(** [a + b] on two numbers that hold integers. *)
Definition numberAdd (a b : Z) : Z := roundToDouble (a + b).

(** How the promise returned by an asynchronous call settles. *)
Inductive Settled : Type :=
| Fulfilled
| Rejected (reason : JsString).

(** The body of an event handler, as the sequence of calls it makes.
    [Call e k] makes the call [e] and goes on with [k] without looking at
    what the call returns; [Await e k] makes the call and suspends the
    handler until the returned promise settles. *)
Inductive Prog (E R : Type) : Type :=
| Ret (r : R)
| Throw (reason : JsString)
| Call (e : E) (k : Prog E R)
| Await (e : E) (k : Settled -> Prog E R).
Arguments Ret {E R} r.
Arguments Throw {E R} reason.

Fixpoint bind {E A B} (m : Prog E A) (f : A -> Prog E B) : Prog E B :=
  match m with
  | Ret a => f a
  | Throw r => Throw r
  | Call e k => Call e (bind k f)
  | Await e k => Await e (fun o => bind (k o) f)
  end.

(** [f(...)] as a statement. *)
Definition call {E} (e : E) : Prog E unit := Call e (Ret tt).

(** [await f(...)] as a statement outside any [try]: a rejection is
    re-thrown at the [await]. *)
Definition await {E} (e : E) : Prog E unit :=
  Await e (fun o =>
    match o with
    | Fulfilled => Ret tt
    | Rejected r => Throw r
    end).

(** What an observer of the handler sees. *)
Inductive Event (E : Type) : Type :=
| Invoked (e : E)
| Resumed (e : E) (o : Settled).

(** How the handler ends: an [async] handler that throws rejects the
    promise it returned. *)
Inductive Completion (R : Type) : Type :=
| Returned (r : R)
| Threw (reason : JsString).

(** Runs a handler; [settle] says how each awaited call settles. *)
Fixpoint run {E R} (settle : E -> Settled) (p : Prog E R)
  : list (Event E) * Completion R :=
  match p with
  | Ret r => ([], Returned r)
  | Throw reason => ([], Threw R reason)
  | Call e k =>
      let '(t, c) := run settle k in (Invoked e :: t, c)
  | Await e k =>
      let '(t, c) := run settle (k (settle e)) in
      (Invoked e :: Resumed e (settle e) :: t, c)
  end.

Definition trace {E R} (settle : E -> Settled) (p : Prog E R)
  : list (Event E) := fst (run settle p).

Definition completion {E R} (settle : E -> Settled) (p : Prog E R)
  : Completion R := snd (run settle p).

(** The calls a handler made, in order. *)
Fixpoint invocations {E} (t : list (Event E)) : list E :=
  match t with
  | [] => []
  | Invoked e :: t' => e :: invocations t'
  | Resumed _ _ :: t' => invocations t'
  end.

(** Whether the handler was ever suspended at an [await]. *)
Definition isResumed {E} (ev : Event E) : bool :=
  match ev with
  | Resumed _ _ => true
  | Invoked _ => false
  end.

(** The [classnames] package on string arguments: the truthy ones, joined
    by a space. An argument that is [undefined] or [false] is [None]. *)
Definition classNames (args : list (option JsString)) : JsString :=
  join (lit " ")
    (flat_map (fun a => match a with
                        | Some c => if truthy c then [c] else []
                        | None => []
                        end) args).

(** [`${n}`] for an integer [n] that JavaScript prints in full (one below
    [10^21] in magnitude). *)
Definition integerToString (n : Z) : JsString :=
  lit (NilEmpty.string_of_int (Z.to_int n)).

(** [s.split(sep)[0]] for a separator of one code unit: what comes before
    the first separator, or all of [s]. *)
Fixpoint beforeFirst (sep : N) (s : JsString) : JsString :=
  match s with
  | [] => []
  | c :: rest => if (c =? sep)%N then [] else c :: beforeFirst sep rest
  end.

End Js.

Module JsNotations.
Notation "x <- m ;; k" := (Js.bind m (fun x => k))
  (at level 61, m at next level, right associativity).
Notation "m ;; k" := (Js.bind m (fun _ => k))
  (at level 61, right associativity).
End JsNotations.

(* ================================================================= *)
(** ** The element tree a render method returns *)

Module VDom.
Import Js.

(** A JSX expression. [VNull] stands for the children React renders as
    nothing ([null], [undefined], [false]). A child that is an array is
    spliced into the children list, which is how React renders it. *)
Inductive VNode : Type :=
| VNull
| VText (s : JsString)
| VNumber (n : Z)
| VElem (type : string) (props : list (string * PropValue))
        (children : list VNode)
with PropValue : Type :=
| PUndefined
| PNull
| PStr (s : JsString)
| PBool (b : bool)
| PNum (n : Z)
| PDate (epochMs : Z)
| PRef (name : string)            (* a function or an imported constant *)
| PObjRef (identity : Z)          (* a value passed along as it is *)
| PObj (fields : list (string * PropValue))
| PMap (entries : list (JsString * JsString))
| PNode (v : VNode)               (* an element passed as a prop *)
| PThunk (v : VNode).             (* a function that returns this element *)

(** [{...base, k: v}]: a later key replaces the earlier one in place. *)
Fixpoint setProp (k : string) (v : PropValue)
    (base : list (string * PropValue)) : list (string * PropValue) :=
  match base with
  | [] => [(k, v)]
  | (k', v') :: rest =>
      if String.eqb k' k then (k, v) :: rest
      else (k', v') :: setProp k v rest
  end.

(** [<X {...base} k1={v1} k2={v2} />] *)
Definition spread (base explicit : list (string * PropValue))
  : list (string * PropValue) :=
  fold_left (fun acc kv => setProp (fst kv) (snd kv) acc) explicit base.

(** [cond && <X/>] *)
Definition when (cond : bool) (v : VNode) : VNode :=
  if cond then v else VNull.

Fixpoint lookupProp (name : string) (props : list (string * PropValue))
  : option PropValue :=
  match props with
  | [] => None
  | (k, v) :: rest =>
      if String.eqb k name then Some v else lookupProp name rest
  end.

Definition propOf (name : string) (v : VNode) : option PropValue :=
  match v with
  | VElem _ props _ => lookupProp name props
  | _ => None
  end.

Definition childrenOf (v : VNode) : list VNode :=
  match v with
  | VElem _ _ children => children
  | _ => []
  end.

Definition typeOf (v : VNode) : option string :=
  match v with
  | VElem type _ _ => Some type
  | _ => None
  end.

(** The node itself and everything below it in the children lists, in
    document order. *)
Fixpoint descendants (v : VNode) : list VNode :=
  v :: match v with
       | VElem _ _ children =>
           (fix all (l : list VNode) : list VNode :=
              match l with
              | [] => []
              | c :: l' => descendants c ++ all l'
              end) children
       | _ => []
       end.

(** The first element of the given type in a list of children. *)
Definition hasType (type : string) (v : VNode) : bool :=
  match typeOf v with
  | Some t => String.eqb t type
  | None => false
  end.

Definition findByType (type : string) (l : list VNode) : option VNode :=
  find (hasType type) l.

End VDom.

(* ================================================================= *)
(** ** The model objects the views are handed *)

Module Models.
Import Js.

(** The field of [models/repository]'s [Repository] that the views read,
    next to the identity of the object. *)
Record Repository : Type := {
  repository_identity : Z;
  gitHubRepository : option Z;
}.

(** The field of [models/branch]'s [Branch] that the views read, next to
    the identity of the object. *)
Record Branch : Type := {
  branch_identity : Z;
  branch_name : JsString;
}.

End Models.

(* ================================================================= *)
(** ** [pull-request-quick-view.tsx] *)

Module PullRequestQuickView.
Import Js VDom.

(** The fields of [models/pull-request]'s [PullRequest] that the view
    reads. The repository object is only handed on, so it is kept by
    identity. *)
Record PullRequest : Type := {
  title : JsString;
  pullRequestNumber : Z;
  base_gitHubRepository : Z;
  body : Nullable JsString;
}.

Record IPullRequestQuickViewProps : Type := {
  pullRequest : PullRequest;
  (** Map from the emoji shortcut to the image's local path. *)
  emoji : list (JsString * JsString);
}.

Definition baseHref : JsString := lit "https://github.com/".

Definition renderHeader : VNode :=
  VElem "header" [("className", PStr (lit "header"))]
    [ VElem "Octicon" [("symbol", PRef "OcticonSymbol.listUnordered")] [];
      VElem "div" [("className", PStr (lit "action-needed"))]
        [VText (lit "Review requested")];
      VElem "Button" [("className", PStr (lit "button-with-icon"))]
        [ VText (lit "View on GitHub");
          VElem "Octicon" [("symbol", PRef "OcticonSymbol.linkExternal")] [] ] ].

(** [body !== undefined && body !== null && body.trim() !== ''
      ? body : '_No description provided._'] *)
Definition displayBody (body : Nullable JsString) : JsString :=
  match body with
  | JsUndefined => lit "_No description provided._"
  | JsNull => lit "_No description provided._"
  | JsValue b =>
      if strictEq (trim b) [] then lit "_No description provided._" else b
  end.

Definition renderPR (props : IPullRequestQuickViewProps) : VNode :=
  let pr := pullRequest props in
  VElem "div" [("className", PStr (lit "pull-request"))]
    [ VElem "div" [("className", PStr (lit "status"))]
        [ VElem "Octicon" [("className", PStr (lit "icon"));
                           ("symbol", PRef "OcticonSymbol.gitPullRequest")] [];
          VElem "span" [("className", PStr (lit "state"))] [VText (lit "Open")] ];
      VElem "div" [("className", PStr (lit "title"))]
        [ VElem "h2" [] [VText (title pr)];
          VElem "PullRequestBadge"
            [("number", PNum (pullRequestNumber pr));
             ("dispatcher", PRef "this.props.dispatcher");
             ("repository", PObjRef (base_gitHubRepository pr))] [] ];
      VElem "SandboxedMarkdown"
        [("markdown", PStr (displayBody (body pr)));
         ("baseHref", PStr baseHref);
         ("emoji", PMap (emoji props))] [] ].

Definition render (props : IPullRequestQuickViewProps) : VNode :=
  VElem "div" [("id", PStr (lit "pull-request-quick-view"));
               ("onMouseEnter", PRef "this.props.onMouseEnter");
               ("onMouseLeave", PRef "this.onMouseLeave")]
    [ VElem "div" [("className", PStr (lit "pull-request-quick-view-contents"))]
        [ renderHeader; renderPR props ] ].

(** The elements of the rendered view that are the markdown renderer. *)
Definition isSandboxedMarkdown (v : VNode) : bool :=
  match typeOf v with
  | Some t => String.eqb t "SandboxedMarkdown"
  | None => false
  end.

Definition markdownRenderers (props : IPullRequestQuickViewProps)
  : list VNode :=
  filter isSandboxedMarkdown (descendants (render props)).

End PullRequestQuickView.

(* ================================================================= *)
(** ** [changes/commit-message-avatar.tsx]: the commit-author avatar *)

Module CommitMessageAvatar.
Import Js VDom JsNotations.

Inductive CommitMessageWarningType : Type :=
| none
| misattribution
| disallowedEmail.

Definition warningType_eqb (a b : CommitMessageWarningType) : bool :=
  match a, b with
  | none, none => true
  | misattribution, misattribution => true
  | disallowedEmail, disallowedEmail => true
  | _, _ => false
  end.

(** The fields of [models/avatar]'s [IAvatarUser] that the view reads. *)
Record IAvatarUser : Type := {
  user_name : JsString;
  user_email : JsString;
}.

Record ICommitMessageAvatarState : Type := {
  isPopoverOpen : bool;
  (** Currently selected account email address. *)
  accountEmail : JsString;
}.

(** The data props. The two callback props, [onUpdateEmail] and
    [onOpenRepositorySettings], are the calls [OnUpdateEmail] and
    [OnOpenRepositorySettings] of [Effect]. *)
Record ICommitMessageAvatarProps : Type := {
  user : option IAvatarUser;
  email : option JsString;
  warningType : CommitMessageWarningType;
  emailRuleErrors : option (list JsString);
  isEnterpriseAccount : bool;
  accountEmails : list JsString;
  preferredAccountEmail : JsString;
}.

(** The constructor's [this.state = ...]. *)
Definition initialState (props : ICommitMessageAvatarProps)
  : ICommitMessageAvatarState :=
  {| isPopoverOpen := false;
     accountEmail := preferredAccountEmail props |}.

Definition userProp (u : option IAvatarUser) : PropValue :=
  match u with
  | None => PUndefined
  | Some u => PObj [("name", PStr (user_name u)); ("email", PStr (user_email u))]
  end.

(** A [string | undefined] expression in child position. *)
Definition optText (s : option JsString) : VNode :=
  match s with
  | None => VNull
  | Some s => VText s
  end.

Definition getTitle (props : ICommitMessageAvatarProps) : PropValue :=
  match user props with
  | None => PStr (lit "Unknown user")
  | Some u =>
      if truthy (user_name u) then
        PNode (VElem "Fragment" []
                 [ VText (lit "Committing as ");
                   VElem "strong" [] [VText (user_name u)];
                   VText (lit " ");
                   VText (user_email u) ])
      else PStr (user_email u)
  end.

Definition renderWarningBadge : VNode :=
  VElem "div" [("className", PStr (lit "warning-badge"))]
    [ VElem "Octicon" [("symbol", PRef "OcticonSymbol.alert")] [] ].

Definition avatar (props : ICommitMessageAvatarProps) : VNode :=
  VElem "Avatar" [("user", userProp (user props)); ("title", PNull)] [].

(** [darwin] is the build constant [__DARWIN__]. *)
Definition renderPopover (darwin : bool) (props : ICommitMessageAvatarProps)
    (state : ICommitMessageAvatarState) : VNode :=
  let accountTypeSuffix :=
    if isEnterpriseAccount props then lit " Enterprise" else lit "" in
  let updateEmailTitle :=
    if darwin then lit "Update Email" else lit "Update email" in
  let userName :=
    match user props with
    | Some u =>
        if truthy (user_name u) then lit " for " ++ user_name u else lit ""
    | None => lit ""
    end in
  let header :=
    match warningType props with
    | misattribution => lit "This commit will be misattributed"
    | disallowedEmail => lit "This email address may be disallowed"
    | none => lit ""
    end in
  VElem "Popover"
    [("caretPosition", PRef "PopoverCaretPosition.LeftBottom");
     ("onClickOutside", PRef "this.closePopover");
     ("ariaLabelledby", PStr (lit "commit-message-avatar-popover-header"))]
    [ VElem "h3" [("id", PStr (lit "commit-message-avatar-popover-header"))]
        [VText header];
      when (warningType_eqb (warningType props) misattribution)
        (VElem "Row" []
           [ VElem "div" []
               [ VText (lit "The email in your global Git config (");
                 VElem "span" [("className", PStr (lit "git-email"))]
                   [optText (email props)];
                 VText (lit ") doesn't match your GitHub");
                 VText accountTypeSuffix;
                 VText (lit " account");
                 VText userName;
                 VText (lit ".");
                 VText (lit " ");
                 VElem "LinkButton"
                   [("ariaLabel",
                     PStr (lit "Learn more about commit attribution"));
                    ("uri",
                     PStr (lit "https://docs.github.com/en/github/committing-changes-to-your-project/why-are-my-commits-linked-to-the-wrong-user"))]
                   [VText (lit "Learn more")] ] ]);
      when (warningType_eqb (warningType props) disallowedEmail)
        (VElem "Row" []
           [ VElem "div" []
               [ VText (lit "The email in your global Git config (");
                 VElem "span" [("className", PStr (lit "git-email"))]
                   [optText (email props)];
                 VText (lit ") may be blocked from pushing to this branch by one or more rules: ");
                 optText (option_map (join (lit ", ")) (emailRuleErrors props)) ] ]);
      VElem "Row" []
        [ VElem "Select"
            [("label", PStr (lit "Your Account Emails"));
             ("value", PStr (accountEmail state));
             ("onChange", PRef "this.onSelectedGitHubEmailChange")]
            (map (fun n => VElem "option" [("key", PStr n); ("value", PStr n)]
                             [VText n])
                 (accountEmails props)) ];
      VElem "Row" []
        [ VElem "div" [("className", PStr (lit "secondary-text"))]
            [ VText (lit "You can also choose an email local to this repository from the");
              VText (lit " ");
              VElem "LinkButton"
                [("onClick", PRef "this.onRepositorySettingsClick")]
                [VText (lit "repository settings")];
              VText (lit ".") ] ];
      VElem "Row" [("className", PStr (lit "button-row"))]
        [ VElem "Button" [("onClick", PRef "this.onIgnoreClick");
                          ("type", PStr (lit "button"))]
            [VText (lit "Ignore")];
          VElem "Button" [("onClick", PRef "this.onUpdateEmailClick");
                          ("type", PStr (lit "submit"))]
            [VText updateEmailTitle] ] ].

Definition render (darwin : bool) (props : ICommitMessageAvatarProps)
    (state : ICommitMessageAvatarState) : VNode :=
  let ariaLabel :=
    match warningType props with
    | none => lit "Show Commit Author Details"
    | misattribution => lit "Commit may be misattributed. View warning."
    | disallowedEmail => lit "Email address may be disallowed. View warning."
    end in
  VElem "div" [("className", PStr (lit "commit-message-avatar-component"))]
    [ when (negb (warningType_eqb (warningType props) none))
        (VElem "Button"
           [("className", PStr (lit "avatar-button"));
            ("ariaLabel", PStr ariaLabel);
            ("onClick", PRef "this.onAvatarClick")]
           [ renderWarningBadge; avatar props ]);
      when (warningType_eqb (warningType props) none)
        (VElem "ToggledtippedContent"
           [("tooltip", getTitle props);
            ("direction", PRef "TooltipDirection.NORTH");
            ("ariaLabel", PStr (lit "Show Commit Author Details"))]
           [ avatar props ]);
      when (isPopoverOpen state) (renderPopover darwin props state) ].

(** *** Event handlers *)

(** The three state changes the component asks React for. *)
Inductive Update : Type :=
| OpenPopover
| ClosePopover
| AccountEmail (email : JsString).

(** What React does with the state when it applies the update. The first
    two are the updater functions of [openPopover] and [closePopover],
    which return [null] (no change) when there is nothing to do. *)
Definition applyUpdate (u : Update) (prevState : ICommitMessageAvatarState)
  : ICommitMessageAvatarState :=
  match u with
  | OpenPopover =>
      if negb (isPopoverOpen prevState)
      then {| isPopoverOpen := true; accountEmail := accountEmail prevState |}
      else prevState
  | ClosePopover =>
      if isPopoverOpen prevState
      then {| isPopoverOpen := false; accountEmail := accountEmail prevState |}
      else prevState
  | AccountEmail e =>
      {| isPopoverOpen := isPopoverOpen prevState; accountEmail := e |}
  end.

(** The calls the handlers make. *)
Inductive Effect : Type :=
| PreventDefault
| SetState (u : Update)
| OnUpdateEmail (email : JsString)
| OnOpenRepositorySettings.

Definition openPopover : Prog Effect unit := call (SetState OpenPopover).

Definition closePopover : Prog Effect unit := call (SetState ClosePopover).

Definition onAvatarClick (props : ICommitMessageAvatarProps)
    (state : ICommitMessageAvatarState) : Prog Effect unit :=
  if warningType_eqb (warningType props) none then Ret tt
  else
    call PreventDefault ;;
    if isPopoverOpen state then closePopover else openPopover.

Definition onRepositorySettingsClick : Prog Effect unit :=
  closePopover ;;
  call OnOpenRepositorySettings.

Definition onIgnoreClick : Prog Effect unit :=
  call PreventDefault ;;
  closePopover.

(** [this.props.email !== this.state.accountEmail], where [props.email] may
    be [undefined]. *)
Definition emailDiffers (props : ICommitMessageAvatarProps)
    (state : ICommitMessageAvatarState) : bool :=
  match email props with
  | None => true
  | Some e => negb (strictEq e (accountEmail state))
  end.

Definition onUpdateEmailClick (props : ICommitMessageAvatarProps)
    (state : ICommitMessageAvatarState) : Prog Effect unit :=
  call PreventDefault ;;
  closePopover ;;
  if emailDiffers props state
  then call (OnUpdateEmail (accountEmail state))
  else Ret tt.

(** [value] is [event.currentTarget.value]. *)
Definition onSelectedGitHubEmailChange (value : JsString)
  : Prog Effect unit :=
  if truthy value then call (SetState (AccountEmail value)) else Ret tt.

(** The state once React has applied, in order, the updates a handler
    asked for. *)
Definition stateAfter (state : ICommitMessageAvatarState)
    (t : list (Event Effect)) : ICommitMessageAvatarState :=
  fold_left
    (fun s e => match e with SetState u => applyUpdate u s | _ => s end)
    (invocations t) state.

(** *** What a rendered avatar shows *)

(** The avatar button of the rendered component, when it has one. *)
Definition avatarButton (rendered : VNode) : option VNode :=
  findByType "Button" (childrenOf rendered).

(** The text of the popover's header, when the rendered component has a
    popover. *)
Definition popoverHeader (rendered : VNode) : option JsString :=
  match findByType "Popover" (childrenOf rendered) with
  | Some popover =>
      match findByType "h3" (childrenOf popover) with
      | Some (VElem _ _ [VText header]) => Some header
      | _ => None
      end
  | None => None
  end.

Definition isOnUpdateEmail (e : Effect) : bool :=
  match e with
  | OnUpdateEmail _ => true
  | _ => false
  end.

(** The tooltip-carrying avatar of the rendered component, when it has
    one. *)
Definition tooltipAvatar (rendered : VNode) : option VNode :=
  findByType "ToggledtippedContent" (childrenOf rendered).

(** The email selector of the rendered component's popover. *)
Definition popoverSelect (rendered : VNode) : option VNode :=
  match findByType "Popover" (childrenOf rendered) with
  | Some popover => find (hasType "Select") (descendants popover)
  | None => None
  end.

Definition optionValues (select : VNode) : list (option PropValue) :=
  map (propOf "value") (childrenOf select).

End CommitMessageAvatar.

(* ================================================================= *)
(** ** [changes/commit-message-avatar.tsx]: the push/pull toolbar button *)

Module PushPullButton.
Import Js VDom JsNotations Models.

(** [models/branch]'s [IAheadBehind]: commit counts, numbers that hold
    integers. *)
Record IAheadBehind : Type := {
  ahead : Z;
  behind : Z;
}.

(** The fields of [models/progress]'s [Progress] that the view reads; the
    fraction done is only handed on. *)
Record Progress : Type := {
  progress_title : JsString;
  progress_description : option JsString;
  progress_value : Z;
}.

(** [models/tip]'s [TipState]. The view names [Unborn] and [Detached]. *)
Inductive TipState : Type :=
| Unknown
| Unborn
| Detached
| Valid.

(** [models/fetch]'s [FetchType] and [lib/app-state]'s [FoldoutType]: the
    member the view names, and the members it does not. *)
Inductive FetchType : Type :=
| UserInitiatedTask
| OtherFetchType (name : string).

Inductive FoldoutType : Type :=
| PushPull
| OtherFoldout (name : string).

Inductive DropdownItemType : Type :=
| Fetch
| ForcePush.

(** The data props; [dispatcher] is the receiver of the calls of
    [DispatcherCall] and [onDropdownStateChanged] is handed on by name. *)
Record IPushPullButtonProps : Type := {
  aheadBehind : option IAheadBehind;
  remoteName : option JsString;
  networkActionInProgress : bool;
  lastFetched : option Z;
  progress : option Progress;
  repository : Repository;
  tipState : TipState;
  pullWithRebase : option bool;
  rebaseInProgress : bool;
  isForcePush : bool;
  shouldNudge : bool;
  numTagsToPush : Z;
  isDropdownOpen : bool;
}.

Definition renderAheadBehind (aheadBehind : IAheadBehind)
    (numTagsToPush : Z) : VNode :=
  let ahead := ahead aheadBehind in
  let behind := behind aheadBehind in
  if ((ahead =? 0) && (behind =? 0) && (numTagsToPush =? 0))%Z then VNull
  else
    let content := [] in
    let content :=
      if ((0 <? ahead) || (0 <? numTagsToPush))%Z then
        content ++
        [ VElem "span" [("key", PStr (lit "ahead"))]
            [ VNumber (numberAdd ahead numTagsToPush);
              VElem "Octicon" [("symbol", PRef "OcticonSymbol.arrowUp")] [] ] ]
      else content in
    let content :=
      if (0 <? behind)%Z then
        content ++
        [ VElem "span" [("key", PStr (lit "behind"))]
            [ VNumber behind;
              VElem "Octicon" [("symbol", PRef "OcticonSymbol.arrowDown")] [] ] ]
      else content in
    VElem "div" [("className", PStr (lit "ahead-behind"))] content.

Definition renderLastFetched (lastFetched : option Z) : PropValue :=
  match lastFetched with
  | Some d =>
      PNode (VElem "span" []
               [ VText (lit "Last fetched ");
                 VElem "RelativeTime" [("date", PDate d)] [] ])
  | None => PStr (lit "Never fetched")
  end.

(** *** Click handlers *)

(** The dispatcher methods the button calls. *)
Module Dispatcher.
Inductive Call : Type :=
| closeFoldout (foldout : FoldoutType)
| push (r : Repository)
| confirmOrForcePush (r : Repository)
| pull (r : Repository)
| fetch (r : Repository) (fetchType : FetchType).

(** The repository a dispatcher call is about. *)
Definition repositoryOf (c : Call) : option Repository :=
  match c with
  | closeFoldout _ => None
  | push r => Some r
  | confirmOrForcePush r => Some r
  | pull r => Some r
  | fetch r _ => Some r
  end.
End Dispatcher.

Definition closeDropdown : Prog Dispatcher.Call unit :=
  call (Dispatcher.closeFoldout PushPull).

Definition push (props : IPushPullButtonProps) : Prog Dispatcher.Call unit :=
  closeDropdown ;;
  call (Dispatcher.push (repository props)).

Definition forcePushWithLease (props : IPushPullButtonProps)
  : Prog Dispatcher.Call unit :=
  closeDropdown ;;
  call (Dispatcher.confirmOrForcePush (repository props)).

Definition pull (props : IPushPullButtonProps) : Prog Dispatcher.Call unit :=
  closeDropdown ;;
  call (Dispatcher.pull (repository props)).

Definition fetch (props : IPushPullButtonProps) : Prog Dispatcher.Call unit :=
  closeDropdown ;;
  call (Dispatcher.fetch (repository props) UserInitiatedTask).

(** The four click handlers of the class, in the order it declares them. *)
Definition clickHandlers (props : IPushPullButtonProps)
  : list (Prog Dispatcher.Call unit) :=
  [ push props; forcePushWithLease props; pull props; fetch props ].

(** *** Rendering *)

(** [`${remoteName}`] where the name may be [null]. *)
Definition interpolate (remoteName : option JsString) : JsString :=
  match remoteName with
  | Some n => n
  | None => lit "null"
  end.

Definition optStr (s : option JsString) : PropValue :=
  match s with
  | Some s => PStr s
  | None => PUndefined
  end.

(** The common props for all button states *)
Definition defaultButtonProps : list (string * PropValue) :=
  [ ("className", PStr (lit "push-pull-button"));
    ("style", PRef "ToolbarButtonStyle.Subtitle") ].

(** The common props for all dropdown states *)
Definition defaultDropdownProps (props : IPushPullButtonProps)
  : list (string * PropValue) :=
  [ ("buttonClassName", PStr (lit "push-pull-button"));
    ("style", PRef "ToolbarButtonStyle.Subtitle");
    ("dropdownStyle", PRef "ToolbarDropdownStyle.MultiOption");
    ("dropdownState",
     PStr (if isDropdownOpen props then lit "open" else lit "closed"));
    ("onDropdownStateChanged", PRef "this.props.onDropdownStateChanged") ].

Definition forcePushIcon : PropValue :=
  PObj
    [ ("w", PNum 10);
      ("h", PNum 16);
      ("d",
       PStr (lit "M0 6a.75.75 0 0 0 .974.714L4.469 3.22a.75.75 0 0 1 1.06 0l3.478 3.478a.75.75 "
             ++ lit "0 0 0 .772-1.228L5.53 1.22a.75.75 0 0 0-1.06 0L.22 5.47A.75.75 0 0 0 0 6zm0 "
             ++ lit "3a.75.75 0 0 0 1.28.53l2.97-2.97V14a.75.75 0 1 0 1.5 0V6.56l2.97 2.97a.75.75 "
             ++ lit "0 0 0 1.06-1.06L5.53 4.22a.75.75 0 0 0-1.06 0L.22 8.47A.75.75 0 0 0 0 9z"));
      ("fr", PStr (lit "evenodd")) ].

(** A dropdown item: [title], [description], [action] and [icon]. *)
Record DropdownItem : Type := {
  item_title : JsString;
  item_description : list VNode;
  item_action : string;
  item_icon : PropValue;
}.

Definition dropdownItemKey (type : DropdownItemType) : JsString :=
  match type with
  | Fetch => lit "fetch"
  | ForcePush => lit "force-push"
  end.

Definition getDropdownItemWithType (props : IPushPullButtonProps)
    (type : DropdownItemType) : DropdownItem :=
  let remote := interpolate (remoteName props) in
  match type with
  | Fetch =>
      {| item_title := lit "Fetch " ++ remote;
         item_description :=
           [VText (lit "Fetch the latest changes from " ++ remote)];
         item_action := "this.fetch";
         item_icon := PRef "syncClockwise" |}
  | ForcePush =>
      {| item_title := lit "Force push " ++ remote;
         item_description :=
           [ VElem "Fragment" []
               [ VText (lit "Overwrite any changes on ");
                 match remoteName props with
                 | Some n => VText n
                 | None => VNull
                 end;
                 VText (lit " with your local changes");
                 VElem "br" [] [];
                 VElem "br" [] [];
                 VElem "div" [("className", PStr (lit "warning"))]
                   [ VElem "span" [("className", PStr (lit "warning-title"))]
                       [VText (lit "Warning:")];
                     VText (lit " A force push will rewrite history on the remote. Any collaborators working on this branch will need to reset their own local branch to match the history of the remote.") ] ] ];
         item_action := "this.forcePushWithLease";
         item_icon := forcePushIcon |}
  end.

Definition renderDropdownItem (props : IPushPullButtonProps)
    (type : DropdownItemType) : VNode :=
  let item := getDropdownItemWithType props type in
  VElem "Button"
    [ ("className", PStr (lit "push-pull-dropdown-item"));
      ("key", PStr (dropdownItemKey type));
      ("onClick", PRef (item_action item)) ]
    [ VElem "Octicon" [("symbol", item_icon item)] [];
      VElem "div" [("className", PStr (lit "text-container"))]
        [ VElem "div" [("className", PStr (lit "title"))]
            [VText (item_title item)];
          VElem "div" [("className", PStr (lit "detail"))]
            (item_description item) ] ].

Definition getDropdownContentRenderer (props : IPushPullButtonProps)
    (itemTypes : list DropdownItemType) : PropValue :=
  PThunk
    (VElem "div" [("className", PStr (lit "push-pull-dropdown-button"))]
       [ VElem "div" [("className", PStr (lit "push-pull-dropdown"))]
           (map (renderDropdownItem props) itemTypes) ]).

(** [progress.description || 'Hang on…'] *)
Definition descriptionOrHangOn (description : option JsString) : JsString :=
  match description with
  | Some d => if truthy d then d else lit "Hang on" ++ [8230%N]
  | None => lit "Hang on" ++ [8230%N]
  end.

Definition progressButton (progress : Progress)
    (networkActionInProgress : bool) : VNode :=
  VElem "ToolbarButton"
    (spread defaultButtonProps
       [ ("title", PStr (progress_title progress));
         ("description",
          PStr (descriptionOrHangOn (progress_description progress)));
         ("progressValue", PObjRef (progress_value progress));
         ("icon", PRef "syncClockwise");
         ("iconClassName",
          PStr (if networkActionInProgress then lit "spin" else lit ""));
         ("tooltip", optStr (progress_description progress));
         ("disabled", PBool true) ])
    [].

Definition publishRepositoryButton (onClick : string) : VNode :=
  VElem "ToolbarButton"
    (spread defaultButtonProps
       [ ("title", PStr (lit "Publish repository"));
         ("description", PStr (lit "Publish this repository to GitHub"));
         ("className", PStr (lit "push-pull-button"));
         ("icon", PRef "OcticonSymbol.upload");
         ("style", PRef "ToolbarButtonStyle.Subtitle");
         ("onClick", PRef onClick) ])
    [].

Definition unbornRepositoryButton : VNode :=
  VElem "ToolbarButton"
    (spread defaultButtonProps
       [ ("title", PStr (lit "Publish branch"));
         ("description", PStr (lit "Cannot publish unborn HEAD"));
         ("icon", PRef "OcticonSymbol.upload");
         ("disabled", PBool true) ])
    [].

Definition detachedHeadButton (rebaseInProgress : bool) : VNode :=
  let description :=
    if rebaseInProgress then lit "Rebase in progress"
    else lit "Cannot publish detached HEAD" in
  VElem "ToolbarButton"
    (spread defaultButtonProps
       [ ("title", PStr (lit "Publish branch"));
         ("description", PStr description);
         ("icon", PRef "OcticonSymbol.upload");
         ("disabled", PBool true) ])
    [].

Definition publishBranchButton (props : IPushPullButtonProps)
    (isGitHub : bool) (onClick : string) (shouldNudge : bool) : VNode :=
  let description :=
    if isGitHub then lit "Publish this branch to GitHub"
    else lit "Publish this branch to the remote" in
  (* [defaultDropdownProps()] has no [className], so [classNames] starts
     from ['nudge-arrow']. *)
  let className :=
    if shouldNudge then lit "nudge-arrow nudge-arrow-up"
    else lit "nudge-arrow" in
  VElem "ToolbarDropdown"
    (spread (defaultDropdownProps props)
       [ ("title", PStr (lit "Publish branch"));
         ("description", PStr description);
         ("icon", PRef "OcticonSymbol.upload");
         ("onClick", PRef onClick);
         ("className", PStr className);
         ("dropdownContentRenderer",
          getDropdownContentRenderer props [Fetch]) ])
    [].

Definition fetchButton (remoteName : JsString) (aheadBehind : IAheadBehind)
    (numTagsToPush : Z) (lastFetched : option Z) (onClick : string) : VNode :=
  let title := lit "Fetch " ++ remoteName in
  VElem "ToolbarButton"
    (spread defaultButtonProps
       [ ("title", PStr title);
         ("description", renderLastFetched lastFetched);
         ("icon", PRef "syncClockwise");
         ("onClick", PRef onClick) ])
    [].

Definition pullButton (props : IPushPullButtonProps) (remoteName : JsString)
    (aheadBehind : IAheadBehind) (numTagsToPush : Z) (lastFetched : option Z)
    (pullWithRebase : bool) (onClick : string) : VNode :=
  let title :=
    if pullWithRebase then lit "Pull " ++ remoteName ++ lit " with rebase"
    else lit "Pull " ++ remoteName in
  VElem "ToolbarDropdown"
    (spread (defaultDropdownProps props)
       [ ("title", PStr title);
         ("description", renderLastFetched lastFetched);
         ("icon", PRef "OcticonSymbol.arrowDown");
         ("onClick", PRef onClick);
         ("dropdownContentRenderer",
          getDropdownContentRenderer props [Fetch; ForcePush]) ])
    [ renderAheadBehind aheadBehind numTagsToPush ].

Definition pushButton (props : IPushPullButtonProps) (remoteName : JsString)
    (aheadBehind : IAheadBehind) (numTagsToPush : Z) (lastFetched : option Z)
    (onClick : string) : VNode :=
  VElem "ToolbarDropdown"
    (spread (defaultDropdownProps props)
       [ ("title", PStr (lit "Push " ++ remoteName));
         ("description", renderLastFetched lastFetched);
         ("icon", PRef "OcticonSymbol.arrowUp");
         ("onClick", PRef onClick);
         ("dropdownContentRenderer",
          getDropdownContentRenderer props [Fetch]) ])
    [ renderAheadBehind aheadBehind numTagsToPush ].

Definition forcePushButton (props : IPushPullButtonProps)
    (remoteName : JsString) (aheadBehind : IAheadBehind) (numTagsToPush : Z)
    (lastFetched : option Z) (onClick : string) : VNode :=
  VElem "ToolbarDropdown"
    (spread (defaultDropdownProps props)
       [ ("title", PStr (lit "Force push " ++ remoteName));
         ("description", renderLastFetched lastFetched);
         ("icon", forcePushIcon);
         ("onClick", PRef onClick);
         ("dropdownContentRenderer",
          getDropdownContentRenderer props [Fetch]) ])
    [ renderAheadBehind aheadBehind numTagsToPush ].

Definition isUnborn (t : TipState) : bool :=
  match t with Unborn => true | _ => false end.

Definition isDetached (t : TipState) : bool :=
  match t with Detached => true | _ => false end.

Definition renderButton (props : IPushPullButtonProps) : VNode :=
  match progress props with
  | Some progress => progressButton progress (networkActionInProgress props)
  | None =>
  match remoteName props with
  | None => publishRepositoryButton "this.push"
  | Some remoteName =>
  if isUnborn (tipState props) then unbornRepositoryButton
  else if isDetached (tipState props) then
    detachedHeadButton (rebaseInProgress props)
  else
  match aheadBehind props with
  | None =>
      let isGitHubRepository :=
        match gitHubRepository (repository props) with
        | Some _ => true
        | None => false
        end in
      publishBranchButton props isGitHubRepository "this.push"
        (shouldNudge props)
  | Some aheadBehind =>
  let numTagsToPush := numTagsToPush props in
  let lastFetched := lastFetched props in
  if ((ahead aheadBehind =? 0) && (behind aheadBehind =? 0)
      && (numTagsToPush =? 0))%Z then
    fetchButton remoteName aheadBehind numTagsToPush lastFetched "this.fetch"
  else if isForcePush props then
    forcePushButton props remoteName aheadBehind numTagsToPush lastFetched
      "this.forcePushWithLease"
  else if (0 <? behind aheadBehind)%Z then
    pullButton props remoteName aheadBehind numTagsToPush lastFetched
      (match pullWithRebase props with Some b => b | None => false end)
      "this.pull"
  else
    pushButton props remoteName aheadBehind numTagsToPush lastFetched
      "this.push"
  end end end.

Definition render (props : IPushPullButtonProps) : VNode :=
  renderButton props.

(** The figure shown in the badge's span with the given key, when the
    badge has such a span. *)
Definition hasKey (key : JsString) (v : VNode) : bool :=
  match propOf "key" v with
  | Some (PStr k) => strictEq k key
  | _ => false
  end.

Definition figure (key : JsString) (badge : VNode) : option Z :=
  match find (hasKey key) (childrenOf badge) with
  | Some (VElem _ _ (VNumber n :: _)) => Some n
  | _ => None
  end.

(** The items of a rendered button's dropdown, [[]] when it has none. *)
Definition dropdownItems (button : VNode) : list VNode :=
  match propOf "dropdownContentRenderer" button with
  | Some (PThunk (VElem _ _ [VElem _ _ items])) => items
  | _ => []
  end.

Definition dropdownItemKeys (button : VNode) : list (option PropValue) :=
  map (propOf "key") (dropdownItems button).

(** The title a rendered dropdown item shows. *)
Definition itemTitle (item : VNode) : option JsString :=
  match item with
  | VElem _ _ [_; VElem _ _ (VElem _ _ [VText title] :: _)] => Some title
  | _ => None
  end.

End PushPullButton.

(* ================================================================= *)
(** ** [lib/popover.tsx]: the popover primitive *)

Module Popover.
Import Js VDom JsNotations.

(** Position of the popover relative to its anchor element. *)
Inductive PopoverAnchorPosition : Type :=
| Top
| TopRight
| TopLeft
| Left
| LeftTop
| LeftBottom
| Bottom
| RightTop
| Right.

(** The string each member of the enum is at run time. *)
Definition anchorPositionValue (p : PopoverAnchorPosition) : JsString :=
  match p with
  | Top => lit "top"
  | TopRight => lit "top-right"
  | TopLeft => lit "top-left"
  | Left => lit "left"
  | LeftTop => lit "left-top"
  | LeftBottom => lit "left-bottom"
  | Bottom => lit "bottom"
  | RightTop => lit "right-top"
  | Right => lit "right"
  end.

Definition allAnchorPositions : list PopoverAnchorPosition :=
  [ Top; TopRight; TopLeft; Left; LeftTop; LeftBottom; Bottom; RightTop;
    Right ].

(** [lib/fatal-error]'s [assertNever(x, message)] throws an error with the
    message. *)
Definition assertNever {R} (message : JsString) : Completion R :=
  Threw R message.

(** The [switch] of [getFloatingPlacementForAnchorPosition], on the value
    [anchorPosition] has at run time. The cases are tried in the order of
    the source; the result is one of the positioning library's [Placement]
    strings. The empty [if (1 !== NaN) { }] block before it does nothing. *)
Definition placementSwitch (anchorPosition : JsString)
  : Completion JsString :=
  if strictEq anchorPosition (anchorPositionValue Top) then
    Returned (lit "top")
  else if strictEq anchorPosition (anchorPositionValue TopLeft) then
    Returned (lit "top-start")
  else if strictEq anchorPosition (anchorPositionValue TopRight) then
    Returned (lit "top-end")
  else if strictEq anchorPosition (anchorPositionValue Left) then
    Returned (lit "left")
  else if strictEq anchorPosition (anchorPositionValue LeftTop) then
    Returned (lit "left-start")
  else if strictEq anchorPosition (anchorPositionValue LeftBottom) then
    Returned (lit "left-end")
  else if strictEq anchorPosition (anchorPositionValue RightTop) then
    Returned (lit "right-start")
  else if strictEq anchorPosition (anchorPositionValue Right) then
    Returned (lit "right")
  else if strictEq anchorPosition (anchorPositionValue Bottom) then
    Returned (lit "bottom")
  else assertNever (lit "Unknown anchor position").

(** [anchorPosition] is [this.props.anchorPosition]. *)
Definition getFloatingPlacementForAnchorPosition
    (anchorPosition : PopoverAnchorPosition) : Completion JsString :=
  placementSwitch (anchorPositionValue anchorPosition).

(** *** Clicks outside the popover *)

Section OutsideInteraction.

(** The document: its nodes, [Node.parentElement] and [Node.contains]. *)
Variable DomNode : Type.
Variable parentElement : DomNode -> option DomNode.
Variable contains : DomNode -> DomNode -> bool.

(** [event.target]: a DOM node, or an event target that is no [Node]
    (or [null]). *)
Inductive EventTarget : Type :=
| NodeTarget (n : DomNode)
| OtherTarget.

Record MouseEvent : Type := {
  target : EventTarget;
}.

(** The props the two document listeners read: whether each callback was
    provided. *)
Record IPopoverProps : Type := {
  onClickOutside : bool;
  onMousedownOutside : bool;
}.

(** The calls of the two callbacks, with the event they are handed. *)
Inductive Effect : Type :=
| OnClickOutside (event : MouseEvent)
| OnMousedownOutside (event : MouseEvent).

(** [ref] is [this.containerDivRef.current]. *)
Definition isOutside (ref : option DomNode) (event : MouseEvent) : bool :=
  match ref with
  | None => false
  | Some ref =>
      match parentElement ref with
      | None => false
      | Some parent =>
          match target event with
          | NodeTarget t => negb (contains parent t)
          | OtherTarget => false
          end
      end
  end.

Definition onDocumentClick (props : IPopoverProps) (ref : option DomNode)
    (event : MouseEvent) : Prog Effect unit :=
  if isOutside ref event && onClickOutside props
  then call (OnClickOutside event)
  else Ret tt.

Definition onDocumentMouseDown (props : IPopoverProps)
    (ref : option DomNode) (event : MouseEvent) : Prog Effect unit :=
  if isOutside ref event && onMousedownOutside props
  then call (OnMousedownOutside event)
  else Ret tt.

End OutsideInteraction.

Arguments NodeTarget {DomNode} n.
Arguments OtherTarget {DomNode}.

(** A document that is one chain of elements, [0] the outermost: the parent
    of [n + 1] is [n], and [a] contains [b] when [b] is [a] or below it. *)
Module ChainDocument.
Definition parentElement (n : nat) : option nat :=
  match n with
  | O => None
  | S m => Some m
  end.

Definition contains (a b : nat) : bool := Nat.leb a b.
End ChainDocument.

(** *** Rendering *)

Inductive PopoverTipPosition : Type :=
| Start
| Center
| End_.

Inductive PopoverAppearEffect : Type :=
| Shake.

Definition appearEffectValue (e : PopoverAppearEffect) : JsString :=
  match e with
  | Shake => lit "shake"
  end.

Definition TipSize : Z := 8.
Definition TipCornerPadding : Z := TipSize * 3.

(** [placement.split('-')[0]] *)
Definition sideOf (placement : JsString) : JsString :=
  beforeFirst 45%N placement.

(** [{ top: 'bottom', right: 'left', bottom: 'top', left: 'right' }[side]],
    [None] for [undefined]. *)
Definition staticSideOf (side : JsString) : option string :=
  if strictEq side (lit "top") then Some "bottom"
  else if strictEq side (lit "right") then Some "left"
  else if strictEq side (lit "bottom") then Some "top"
  else if strictEq side (lit "left") then Some "right"
  else None.

(** [{ top: '270deg', right: '0deg', bottom: '90deg', left: '180deg' }[side]] *)
Definition angleOf (side : JsString) : option JsString :=
  if strictEq side (lit "top") then Some (lit "270deg")
  else if strictEq side (lit "right") then Some (lit "0deg")
  else if strictEq side (lit "bottom") then Some (lit "90deg")
  else if strictEq side (lit "left") then Some (lit "180deg")
  else None.

(** A value that may be [undefined], as a property key and inside a
    template literal. *)
Definition keyOf (k : option string) : string :=
  match k with
  | Some k => k
  | None => "undefined"
  end.

Definition textOf (t : option JsString) : JsString :=
  match t with
  | Some t => t
  | None => lit "undefined"
  end.

Section Rendering.

(** The numbers the positioning library and the DOM hand to the view:
    how one is printed in a template literal, its negation, and the number
    as a style value. *)
Variable Num : Type.
Variable toString : Num -> JsString.
Variable negate : Num -> Num.
Variable numProp : Num -> PropValue.

Record Arrow : Type := {
  arrow_x : option Num;
  arrow_y : option Num;
}.

(** The fields of the positioning library's [ComputePositionReturn] that
    [render] reads. *)
Record ComputePositionReturn : Type := {
  pos_x : option Num;
  pos_y : option Num;
  placement : JsString;
  middlewareData_arrow : option Arrow;
}.

(** The props [render] reads. *)
Record IPopoverRenderProps : Type := {
  trapFocus : option bool;
  className : option JsString;
  appearEffect : option PopoverAppearEffect;
  ariaLabelledby : option JsString;
  showTip : option bool;
  minHeight : option Num;
  children : list VNode;
}.

Record IPopoverState : Type := {
  position : option ComputePositionReturn;
}.

(** [n === undefined ? undefined : `${n}px`] *)
Definition optPx (n : option Num) : PropValue :=
  match n with
  | None => PUndefined
  | Some n => PStr (toString n ++ lit "px")
  end.

Definition optNum (n : option Num) : PropValue :=
  match n with
  | None => PUndefined
  | Some n => numProp n
  end.

(** [flag !== false] *)
Definition notFalse (flag : option bool) : bool :=
  match flag with
  | Some false => false
  | _ => true
  end.

(** The [style] object of the container. *)
Definition containerStyle (props : IPopoverRenderProps)
    (state : IPopoverState) : list (string * PropValue) :=
  let style := [("position", PStr (lit "fixed")); ("zIndex", PNum 1000)] in
  match position state with
  | Some position =>
      setProp "height" (optPx (minHeight props))
        (setProp "left" (optPx (pos_x position))
           (setProp "top" (optPx (pos_y position)) style))
  | None => style
  end.

(** The [tipStyle] object; [tipOffsetWidth] is
    [this.tipDivRef.current.offsetWidth] when the ref is set. *)
Definition tipStyle (state : IPopoverState) (tipOffsetWidth : option Num)
  : list (string * PropValue) :=
  match position state with
  | Some position =>
      match middlewareData_arrow position with
      | Some arrow =>
          let side := sideOf (placement position) in
          let staticSide := staticSideOf side in
          let angle := angleOf side in
          setProp (keyOf staticSide)
            (match tipOffsetWidth with
             | Some w => PStr (toString (negate w) ++ lit "px")
             | None => PUndefined
             end)
            [ ("top", optNum (arrow_y arrow));
              ("left", optNum (arrow_x arrow));
              ("transform",
               PStr (lit "rotate(" ++ textOf angle ++ lit ")")) ]
      | None => []
      end
  | None => []
  end.

Definition render (props : IPopoverRenderProps) (state : IPopoverState)
    (tipOffsetWidth : option Num) : VNode :=
  let cn :=
    classNames
      [ Some (lit "popover-component");
        className props;
        option_map (fun e => lit "appear-" ++ appearEffectValue e)
          (appearEffect props) ] in
  VElem "FocusTrap"
    [ ("active", PBool (notFalse (trapFocus props)));
      ("focusTrapOptions", PRef "this.focusTrapOptions") ]
    [ VElem "div"
        [ ("className", PStr cn);
          ("style", PObj (containerStyle props state));
          ("ref", PRef "this.containerDivRef");
          ("aria-labelledby",
           match ariaLabelledby props with
           | Some l => PStr l
           | None => PUndefined
           end);
          ("role", PStr (lit "dialog")) ]
        (children props ++
         [ when (notFalse (showTip props))
             (VElem "div"
                [ ("className", PStr (lit "popover-tip"));
                  ("style",
                   PObj (spread
                           [ ("position", PStr (lit "absolute"));
                             ("width", PNum (TipSize * 2));
                             ("height", PNum (TipSize * 2)) ]
                           (tipStyle state tipOffsetWidth)));
                  ("ref", PRef "this.tipDivRef") ]
                [ VElem "div"
                    [ ("className", PStr (lit "popover-tip-border"));
                      ("style",
                       PObj [ ("position", PStr (lit "absolute"));
                              ("right", PNum 1);
                              ("width", PNum 0);
                              ("height", PNum 0);
                              ("borderWidth",
                               PStr (integerToString TipSize ++ lit "px"));
                              ("borderRightWidth",
                               PStr (integerToString (TipSize - 1)
                                     ++ lit "px")) ]);
                      ("ref", PRef "this.tipDivRef") ] [];
                  VElem "div"
                    [ ("className", PStr (lit "popover-tip-background"));
                      ("style",
                       PObj [ ("position", PStr (lit "absolute"));
                              ("right", PNum 0);
                              ("width", PNum 0);
                              ("height", PNum 0);
                              ("borderWidth",
                               PStr (integerToString TipSize ++ lit "px"));
                              ("borderRightWidth",
                               PStr (integerToString (TipSize - 1)
                                     ++ lit "px")) ]);
                      ("ref", PRef "this.tipDivRef") ] [] ]) ]) ].

End Rendering.

(** The container [div] of a rendered popover and the [style] object of an
    element. *)
Definition containerOf (rendered : VNode) : VNode :=
  hd VNull (childrenOf rendered).

(** The tip comes after the popover's own children. *)
Definition tipOf (rendered : VNode) : VNode :=
  last (childrenOf (containerOf rendered)) VNull.

Definition styleOf (v : VNode) : list (string * PropValue) :=
  match propOf "style" v with
  | Some (PObj fields) => fields
  | _ => []
  end.

(** *** Mounting, updating and unmounting *)

(** The instance field [floatingCleanUp], with what the component has
    registered outside itself: the [autoUpdate] subscriptions that are
    running (each started by one [autoUpdate] call and stopped by calling
    the function that call returned) and the listeners on [document]. *)
Record Lifecycle : Type := {
  floatingCleanUp : option nat;
  subscriptions : list nat;
  nextSubscription : nat;
  documentListeners : list (string * string);
}.

Definition unmounted : Lifecycle :=
  {| floatingCleanUp := None;
     subscriptions := [];
     nextSubscription := 0;
     documentListeners := [] |}.

Definition listener_eqb (a b : string * string) : bool :=
  String.eqb (fst a) (fst b) && String.eqb (snd a) (snd b).

(** [document.addEventListener(type, listener)]: a listener that is
    already registered is not registered again. *)
Definition addEventListener (type listener : string) (l : Lifecycle)
  : Lifecycle :=
  {| floatingCleanUp := floatingCleanUp l;
     subscriptions := subscriptions l;
     nextSubscription := nextSubscription l;
     documentListeners :=
       if existsb (listener_eqb (type, listener)) (documentListeners l)
       then documentListeners l
       else documentListeners l ++ [(type, listener)] |}.

Definition removeEventListener (type listener : string) (l : Lifecycle)
  : Lifecycle :=
  {| floatingCleanUp := floatingCleanUp l;
     subscriptions := subscriptions l;
     nextSubscription := nextSubscription l;
     documentListeners :=
       filter (fun x => negb (listener_eqb (type, listener) x))
         (documentListeners l) |}.

(** [this.floatingCleanUp?.()] *)
Definition callFloatingCleanUp (l : Lifecycle) : Lifecycle :=
  match floatingCleanUp l with
  | Some s =>
      {| floatingCleanUp := floatingCleanUp l;
         subscriptions :=
           filter (fun x => negb (Nat.eqb x s)) (subscriptions l);
         nextSubscription := nextSubscription l;
         documentListeners := documentListeners l |}
  | None => l
  end.

(** [anchor] is [this.props.anchor] and [container] is
    [this.containerDivRef.current], both by identity. *)
Definition setupPosition (anchor : Nullable nat) (container : option nat)
    (l : Lifecycle) : Lifecycle :=
  let l := callFloatingCleanUp l in
  match anchor, container with
  | JsValue _, Some _ =>
      {| floatingCleanUp := Some (nextSubscription l);
         subscriptions := nextSubscription l :: subscriptions l;
         nextSubscription := S (nextSubscription l);
         documentListeners := documentListeners l |}
  | _, _ => l
  end.

Definition componentDidMount (anchor : Nullable nat)
    (container : option nat) (l : Lifecycle) : Lifecycle :=
  setupPosition anchor container
    (addEventListener "mousedown" "this.onDocumentMouseDown"
       (addEventListener "click" "this.onDocumentClick" l)).

(** [prevProps.anchor !== this.props.anchor] *)
Definition anchorChanged (prev anchor : Nullable nat) : bool :=
  match prev, anchor with
  | JsUndefined, JsUndefined => false
  | JsNull, JsNull => false
  | JsValue a, JsValue b => negb (Nat.eqb a b)
  | _, _ => true
  end.

Definition componentDidUpdate (prevAnchor anchor : Nullable nat)
    (container : option nat) (l : Lifecycle) : Lifecycle :=
  if anchorChanged prevAnchor anchor then setupPosition anchor container l
  else l.

Definition componentWillUnmount (l : Lifecycle) : Lifecycle :=
  removeEventListener "mousedown" "this.onDocumentMouseDown"
    (removeEventListener "click" "this.onDocumentClick" l).

(** What React calls on the component, in some order. *)
Inductive LifecycleCall : Type :=
| DidMount (anchor : Nullable nat) (container : option nat)
| DidUpdate (prevAnchor anchor : Nullable nat) (container : option nat)
| WillUnmount.

Definition lifecycleCall (l : Lifecycle) (c : LifecycleCall) : Lifecycle :=
  match c with
  | DidMount anchor container => componentDidMount anchor container l
  | DidUpdate prev anchor container =>
      componentDidUpdate prev anchor container l
  | WillUnmount => componentWillUnmount l
  end.

Definition lifecycle (calls : list LifecycleCall) : Lifecycle :=
  fold_left lifecycleCall calls unmounted.

(** At most one [autoUpdate] subscription is running, and it is the one
    whose clean-up function the component holds. *)
Definition one_subscription (l : Lifecycle) : Prop :=
  subscriptions l = []
  \/ exists s, subscriptions l = [s] /\ floatingCleanUp l = Some s.

(** The listeners the component has on [document] are its two, each at
    most once. *)
Definition own_listeners (l : Lifecycle) : Prop :=
  NoDup (documentListeners l)
  /\ Forall (fun x => x = ("click", "this.onDocumentClick")
                      \/ x = ("mousedown", "this.onDocumentMouseDown"))
       (documentListeners l).

End Popover.

(* ================================================================= *)
(** ** [lib/popover.tsx]: the delete-remote-branch dialog *)

Module DeleteRemoteBranch.
Import Js VDom JsNotations Models.

Record IDeleteRemoteBranchProps : Type := {
  repository : Repository;
  branch : Branch;
}.

Record IDeleteRemoteBranchState : Type := {
  isDeleting : bool;
}.

(** The constructor's [this.state = ...]. *)
Definition initialState : IDeleteRemoteBranchState :=
  {| isDeleting := false |}.

Definition render (darwin : bool) (props : IDeleteRemoteBranchProps)
    (state : IDeleteRemoteBranchState) : VNode :=
  VElem "Dialog"
    [ ("id", PStr (lit "delete-branch"));
      ("role", PStr (lit "alertdialog"));
      ("ariaDescribedBy", PStr (lit "delete-branch-description"));
      ("title",
       PStr (if darwin then lit "Delete Remote Branch"
             else lit "Delete remote branch"));
      ("type", PStr (lit "warning"));
      ("onSubmit", PRef "this.deleteBranch");
      ("onDismissed", PRef "this.props.onDismissed");
      ("disabled", PBool (isDeleting state));
      ("loading", PBool (isDeleting state)) ]
    [ VElem "DialogContent" []
        [ VElem "div" [("id", PStr (lit "delete-branch-description"))]
            [ VElem "p" []
                [ VText (lit "Delete remote branch ");
                  VElem "Ref" [] [VText (branch_name (branch props))];
                  VText (lit "?");
                  VElem "br" [] [];
                  VText (lit "This action cannot be undone.") ];
              VElem "p" []
                [ VText (lit "This branch does not exist locally. Deleting it may impact others collaborating on this branch.") ] ] ];
      VElem "DialogFooter" []
        [ VElem "OkCancelButtonGroup"
            [("destructive", PBool true); ("okButtonText", PStr (lit "Delete"))]
            [] ] ].

(** The calls [deleteBranch] makes: on the component, on the dispatcher
    and on the two callback props. *)
Inductive Effect : Type :=
| SetState (s : IDeleteRemoteBranchState)
| deleteRemoteBranch (r : Repository) (b : Branch)
| onDeleted (r : Repository)
| onDismissed.

Definition deleteBranch (props : IDeleteRemoteBranchProps)
  : Prog Effect unit :=
  let repository := repository props in
  let branch := branch props in
  call (SetState {| isDeleting := true |}) ;;
  await (deleteRemoteBranch repository branch) ;;
  call (onDeleted repository) ;;
  call onDismissed.

(** The state once React has applied the updates the handler asked for. *)
Definition stateAfter (state : IDeleteRemoteBranchState)
    (t : list (Event Effect)) : IDeleteRemoteBranchState :=
  fold_left
    (fun s e => match e with SetState s' => s' | _ => s end)
    (invocations t) state.

End DeleteRemoteBranch.

(* ================================================================= *)
(** ** The commit warning banner *)

Module CommitWarning.
Import Js VDom JsNotations.

(** A numeric enum: [Warning] is [0] and [Information] is [1] at run
    time. *)
Inductive CommitWarningIcon : Type :=
| Warning
| Information.

Definition iconValue (icon : CommitWarningIcon) : Z :=
  match icon with
  | Warning => 0
  | Information => 1
  end.

(** The [switch] of [renderIcon] on the number [icon] is at run time; the
    default case is [assertNever], which throws its message. *)
Definition renderIconSwitch (icon : Z) : Completion VNode :=
  if (icon =? iconValue Warning)%Z then
    Returned (VElem "Octicon" [ ("className", PStr (lit "warning-icon"));
                                ("symbol", PRef "OcticonSymbol.alert") ] [])
  else if (icon =? iconValue Information)%Z then
    Returned (VElem "Octicon" [ ("className", PStr (lit "information-icon"));
                                ("symbol", PRef "OcticonSymbol.info") ] [])
  else Threw VNode (lit "Unexpected icon value " ++ integerToString icon).

Definition renderIcon (icon : CommitWarningIcon) : Completion VNode :=
  renderIconSwitch (iconValue icon).

Record ICommitWarningProps : Type := {
  icon : CommitWarningIcon;
  displayingAboveForm : bool;
  children : list VNode;
}.

(** [classNames('commit-warning-component', { above: displayingAboveForm })] *)
Definition CommitWarning (props : ICommitWarningProps) : Completion VNode :=
  match renderIcon (icon props) with
  | Returned iconElement =>
      Returned
        (VElem "div"
           [ ("className",
              PStr (classNames
                      [ Some (lit "commit-warning-component");
                        if displayingAboveForm props then Some (lit "above")
                        else None ]));
             ("onContextMenu", PRef "ignoreContextMenu") ]
           [ VElem "div" [("className", PStr (lit "warning-icon-container"))]
               [iconElement];
             VElem "div" [("className", PStr (lit "warning-message"))]
               (children props) ])
  | Threw _ message => Threw VNode message
  end.

(** The one call [ignoreContextMenu] makes. *)
Inductive Effect : Type :=
| PreventDefault.

Definition ignoreContextMenu : Prog Effect unit :=
  call PreventDefault.

End CommitWarning.

(* ================================================================= *)
(** ** Component instances the properties are exercised on *)

Module Scenarios.
Import Js Models.

(** A branch two commits ahead of and three behind [origin], rebased, so
    that a force push is offered. *)
Definition behind_and_force_push : PushPullButton.IPushPullButtonProps :=
  {| PushPullButton.aheadBehind :=
       Some {| PushPullButton.ahead := 2; PushPullButton.behind := 3 |};
     PushPullButton.remoteName := Some (lit "origin");
     PushPullButton.networkActionInProgress := false;
     PushPullButton.lastFetched := None;
     PushPullButton.progress := None;
     PushPullButton.repository := {| repository_identity := 1; gitHubRepository := Some 7%Z |};
     PushPullButton.tipState := PushPullButton.Valid;
     PushPullButton.pullWithRebase := None;
     PushPullButton.rebaseInProgress := false;
     PushPullButton.isForcePush := true;
     PushPullButton.shouldNudge := false;
     PushPullButton.numTagsToPush := 0;
     PushPullButton.isDropdownOpen := false |}.

(** A commit author whose Git config email is not one of the account's. *)
Definition misattributed : CommitMessageAvatar.ICommitMessageAvatarProps :=
  {| CommitMessageAvatar.user :=
       Some {| CommitMessageAvatar.user_name := lit "Mona";
               CommitMessageAvatar.user_email := lit "mona@work.example" |};
     CommitMessageAvatar.email := Some (lit "mona@home.example");
     CommitMessageAvatar.warningType := CommitMessageAvatar.misattribution;
     CommitMessageAvatar.emailRuleErrors := None;
     CommitMessageAvatar.isEnterpriseAccount := false;
     CommitMessageAvatar.accountEmails :=
       [lit "mona@work.example"; lit "mona@users.example"];
     CommitMessageAvatar.preferredAccountEmail := lit "mona@work.example" |}.

(** The same author once the Git config email is the preferred one. *)
Definition attributed : CommitMessageAvatar.ICommitMessageAvatarProps :=
  {| CommitMessageAvatar.user := CommitMessageAvatar.user misattributed;
     CommitMessageAvatar.email := Some (lit "mona@work.example");
     CommitMessageAvatar.warningType := CommitMessageAvatar.misattribution;
     CommitMessageAvatar.emailRuleErrors := None;
     CommitMessageAvatar.isEnterpriseAccount := false;
     CommitMessageAvatar.accountEmails :=
       CommitMessageAvatar.accountEmails misattributed;
     CommitMessageAvatar.preferredAccountEmail := lit "mona@work.example" |}.

(** The avatar's state with the popover open and the preferred email
    selected. *)
Definition popoverOpen : CommitMessageAvatar.ICommitMessageAvatarState :=
  {| CommitMessageAvatar.isPopoverOpen := true;
     CommitMessageAvatar.accountEmail := lit "mona@work.example" |}.

(** A dialog about the remote branch [origin/topic]. *)
Definition deleteTopic : DeleteRemoteBranch.IDeleteRemoteBranchProps :=
  {| DeleteRemoteBranch.repository :=
       {| repository_identity := 1; gitHubRepository := Some 7%Z |};
     DeleteRemoteBranch.branch :=
       {| branch_identity := 2; branch_name := lit "origin/topic" |} |}.

(** A dispatcher whose every call fails. *)
Definition failing {E : Type} (e : E) : Settled :=
  Rejected (lit "network error").

(** A dispatcher whose every call succeeds. *)
Definition succeeding {E : Type} (e : E) : Settled := Fulfilled.

(** A branch two commits ahead of [origin] and not behind it. *)
Definition ahead_only : PushPullButton.IPushPullButtonProps :=
  {| PushPullButton.aheadBehind :=
       Some {| PushPullButton.ahead := 2; PushPullButton.behind := 0 |};
     PushPullButton.remoteName := Some (lit "origin");
     PushPullButton.networkActionInProgress := false;
     PushPullButton.lastFetched := Some 1700000000000%Z;
     PushPullButton.progress := None;
     PushPullButton.repository :=
       {| repository_identity := 1; gitHubRepository := Some 7%Z |};
     PushPullButton.tipState := PushPullButton.Valid;
     PushPullButton.pullWithRebase := None;
     PushPullButton.rebaseInProgress := false;
     PushPullButton.isForcePush := false;
     PushPullButton.shouldNudge := false;
     PushPullButton.numTagsToPush := 0;
     PushPullButton.isDropdownOpen := false |}.

(** A branch one commit ahead of and three behind [origin]. *)
Definition diverged : PushPullButton.IPushPullButtonProps :=
  {| PushPullButton.aheadBehind :=
       Some {| PushPullButton.ahead := 1; PushPullButton.behind := 3 |};
     PushPullButton.remoteName := Some (lit "origin");
     PushPullButton.networkActionInProgress := false;
     PushPullButton.lastFetched := None;
     PushPullButton.progress := None;
     PushPullButton.repository :=
       {| repository_identity := 1; gitHubRepository := None |};
     PushPullButton.tipState := PushPullButton.Valid;
     PushPullButton.pullWithRebase := Some true;
     PushPullButton.rebaseInProgress := false;
     PushPullButton.isForcePush := false;
     PushPullButton.shouldNudge := false;
     PushPullButton.numTagsToPush := 1;
     PushPullButton.isDropdownOpen := true |}.

(** A branch level with [origin], with no tag to push. *)
Definition in_sync : PushPullButton.IPushPullButtonProps :=
  {| PushPullButton.aheadBehind :=
       Some {| PushPullButton.ahead := 0; PushPullButton.behind := 0 |};
     PushPullButton.remoteName := Some (lit "origin");
     PushPullButton.networkActionInProgress := false;
     PushPullButton.lastFetched := None;
     PushPullButton.progress := None;
     PushPullButton.repository :=
       {| repository_identity := 1; gitHubRepository := None |};
     PushPullButton.tipState := PushPullButton.Valid;
     PushPullButton.pullWithRebase := None;
     PushPullButton.rebaseInProgress := false;
     PushPullButton.isForcePush := true;
     PushPullButton.shouldNudge := false;
     PushPullButton.numTagsToPush := 0;
     PushPullButton.isDropdownOpen := false |}.

End Scenarios.

(* ================================================================= *)
(** * Properties *)

(** ** Strings and handler runs *)

Section JsFacts.
Import Js.

Lemma strictEq_refl (s : JsString) : strictEq s s = true.
Proof.
  unfold strictEq. destruct (JsString_eq_dec s s); congruence.
Qed.

Lemma strictEq_true_iff (a b : JsString) : strictEq a b = true <-> a = b.
Proof.
  unfold strictEq. destruct (JsString_eq_dec a b); split; congruence.
Qed.

Lemma strictEq_false_iff (a b : JsString) : strictEq a b = false <-> a <> b.
Proof.
  unfold strictEq. destruct (JsString_eq_dec a b); split; congruence.
Qed.

(** [trimStart] leaves nothing exactly when every code unit is white
    space. *)
Lemma trimStart_nil_iff (s : JsString) :
  trimStart s = [] <-> forallb isWhiteSpace s = true.
Proof.
  induction s as [|c s IH]; simpl.
  - tauto.
  - destruct (isWhiteSpace c); simpl.
    + exact IH.
    + split; discriminate.
Qed.

(** What [trimStart] leaves starts with a code unit that is not white
    space. *)
Lemma trimStart_head (s : JsString) (c : N) (rest : JsString) :
  trimStart s = c :: rest -> isWhiteSpace c = false.
Proof.
  induction s as [|d s IH]; simpl.
  - discriminate.
  - destruct (isWhiteSpace d) eqn:Hd.
    + exact IH.
    + intros H. injection H as -> _. exact Hd.
Qed.

Lemma trimEnd_nil_iff (s : JsString) :
  trimEnd s = [] <-> forallb isWhiteSpace s = true.
Proof.
  unfold trimEnd. split.
  - intros H.
    assert (Hr : trimStart (rev s) = []).
    { rewrite <- (rev_involutive (trimStart (rev s))), H. reflexivity. }
    apply trimStart_nil_iff in Hr.
    rewrite forallb_forall in Hr |- *.
    intros x Hx. apply Hr. apply in_rev. rewrite rev_involutive. exact Hx.
  - intros H.
    assert (Hr : trimStart (rev s) = []).
    { apply trimStart_nil_iff. rewrite forallb_forall in H |- *.
      intros x Hx. apply H. apply in_rev. exact Hx. }
    rewrite Hr. reflexivity.
Qed.

(** [s.trim() === ''] exactly when [s] is made of white space only (the
    empty string included). *)
Lemma trim_nil_iff (s : JsString) :
  trim s = [] <-> forallb isWhiteSpace s = true.
Proof.
  unfold trim. rewrite trimEnd_nil_iff. split.
  - intros H. destruct (trimStart s) as [|c rest] eqn:Hs.
    + apply trimStart_nil_iff. exact Hs.
    + apply trimStart_head in Hs. simpl in H. rewrite Hs in H. discriminate.
  - intros H. apply trimStart_nil_iff in H. rewrite H. reflexivity.
Qed.

Lemma trim_empty_test (s : JsString) :
  strictEq (trim s) [] = forallb isWhiteSpace s.
Proof.
  destruct (forallb isWhiteSpace s) eqn:H.
  - apply strictEq_true_iff, trim_nil_iff, H.
  - apply strictEq_false_iff. intros Ht. apply trim_nil_iff in Ht. congruence.
Qed.

End JsFacts.

(** ** The pull-request quick view *)

Section PullRequestQuickViewFacts.
Import Js VDom PullRequestQuickView.

Lemma displayBody_spec (body : Nullable JsString) :
  displayBody body =
  match body with
  | JsValue b =>
      if forallb isWhiteSpace b then lit "_No description provided._" else b
  | _ => lit "_No description provided._"
  end.
Proof.
  destruct body as [| |b]; simpl; try reflexivity.
  rewrite trim_empty_test. reflexivity.
Qed.

Example displayBody_blank :
  displayBody (JsValue (lit "  " ++ [160; 10; 8232]%N))
  = lit "_No description provided._".
Proof. reflexivity. Qed.

Example displayBody_text :
  displayBody (JsValue (lit " fixes #12 ")) = lit " fixes #12 ".
Proof. reflexivity. Qed.

(** C8. The view renders exactly one markdown renderer. Its [markdown] is
    the pull request's body when the body is a string that is not made of
    white space only, and ['_No description provided._'] when the body is
    [undefined], [null] or white space only (the empty string included);
    its [baseHref] is always ['https://github.com/']. *)
Theorem quick_view_markdown_and_baseHref (props : IPullRequestQuickViewProps) :
  exists m,
    markdownRenderers props = [m]
    /\ propOf "markdown" m
       = Some (PStr match body (pullRequest props) with
                    | JsValue b =>
                        if forallb isWhiteSpace b
                        then lit "_No description provided._"
                        else b
                    | _ => lit "_No description provided._"
                    end)
    /\ propOf "baseHref" m = Some (PStr (lit "https://github.com/")).
Proof.
  eexists. split; [reflexivity|]. split.
  - simpl. rewrite displayBody_spec. reflexivity.
  - reflexivity.
Qed.

End PullRequestQuickViewFacts.

(** ** The popover *)

Section PopoverPlacementFacts.
Import Js Popover.

(** C6. The mapping from anchor position to placement is total: each of
    the nine positions yields its placement, and the [assertNever] branch
    is never taken. *)
Theorem getFloatingPlacementForAnchorPosition_total :
  getFloatingPlacementForAnchorPosition Top = Returned (lit "top")
  /\ getFloatingPlacementForAnchorPosition TopLeft = Returned (lit "top-start")
  /\ getFloatingPlacementForAnchorPosition TopRight = Returned (lit "top-end")
  /\ getFloatingPlacementForAnchorPosition Left = Returned (lit "left")
  /\ getFloatingPlacementForAnchorPosition LeftTop = Returned (lit "left-start")
  /\ getFloatingPlacementForAnchorPosition LeftBottom = Returned (lit "left-end")
  /\ getFloatingPlacementForAnchorPosition RightTop = Returned (lit "right-start")
  /\ getFloatingPlacementForAnchorPosition Right = Returned (lit "right")
  /\ getFloatingPlacementForAnchorPosition Bottom = Returned (lit "bottom")
  /\ (forall p : PopoverAnchorPosition,
        In p allAnchorPositions
        /\ exists placement,
             getFloatingPlacementForAnchorPosition p = Returned placement).
Proof.
  repeat (split; [vm_compute; reflexivity|]).
  intros p. split.
  - destruct p; simpl; tauto.
  - destruct p; eexists; vm_compute; reflexivity.
Qed.

End PopoverPlacementFacts.

Example placementSwitch_outside_enum :
  Popover.placementSwitch (Js.lit "bottom-right")
  = Js.Threw Js.JsString (Js.lit "Unknown anchor position").
Proof. reflexivity. Qed.

(** ** The push/pull button *)

Section PushPullButtonFacts.
Import Js VDom Models PushPullButton.

Example renderAheadBehind_2_1_0 :
  renderAheadBehind {| ahead := 2; behind := 1 |} 0
  = VElem "div" [("className", PStr (lit "ahead-behind"))]
      [ VElem "span" [("key", PStr (lit "ahead"))]
          [ VNumber 2;
            VElem "Octicon" [("symbol", PRef "OcticonSymbol.arrowUp")] [] ];
        VElem "span" [("key", PStr (lit "behind"))]
          [ VNumber 1;
            VElem "Octicon" [("symbol", PRef "OcticonSymbol.arrowDown")] [] ] ].
Proof. reflexivity. Qed.

(** C2, as stated, fails: with no commit ahead or behind and one tag to
    push, the badge is rendered, and its up-arrow figure is 1, not the
    ahead count 0. *)
Lemma renderAheadBehind_tags_counterexample :
  ~ ((ahead {| ahead := 0; behind := 0 |} = 0%Z
      /\ behind {| ahead := 0; behind := 0 |} = 0%Z
      -> renderAheadBehind {| ahead := 0; behind := 0 |} 1 = VNull)
     /\ (forall k,
           figure (lit "ahead")
             (renderAheadBehind {| ahead := 0; behind := 0 |} 1) = Some k
           -> k = ahead {| ahead := 0; behind := 0 |})).
Proof.
  intros [Hnull _]. specialize (Hnull (conj eq_refl eq_refl)).
  vm_compute in Hnull. discriminate.
Qed.

Lemma numberAdd_exact (a b : Z) :
  exactInteger (a + b) -> numberAdd a b = (a + b)%Z.
Proof.
  unfold exactInteger, numberAdd, roundToDouble. intros Hsum.
  destruct (Z.leb_spec (Z.abs (a + b)) (2 ^ 53)) as [_|Hbig];
    [reflexivity | lia].
Qed.

Example numberAdd_rounds :
  numberAdd (2 ^ 53) 1 = (2 ^ 53)%Z /\ numberAdd (2 ^ 53 + 2) 1 = (2 ^ 53 + 4)%Z.
Proof. split; vm_compute; reflexivity. Qed.

Example renderAheadBehind_beyond_exact :
  figure (lit "ahead")
    (renderAheadBehind {| ahead := 9007199254740992; behind := 0 |} 1)
  = Some 9007199254740992%Z.
Proof. vm_compute. reflexivity. Qed.

(** C2, amended. For counts that are integers of magnitude at most [2^53]
    whose sum of ahead count and tags to push is one too, so that the sum
    is computed exactly: no badge is rendered exactly when the ahead
    count, the behind count and the number of tags to push are all zero.
    Otherwise the up-arrow span is present exactly when commits are ahead
    or tags are to be pushed, and its figure is the ahead count plus the
    number of tags to push; the down-arrow span is present exactly when
    commits are behind, and its figure is the behind count. *)
Theorem renderAheadBehind_figures (ab : IAheadBehind) (numTagsToPush : Z) :
  exactInteger (ahead ab) ->
  exactInteger (behind ab) ->
  exactInteger numTagsToPush ->
  exactInteger (ahead ab + numTagsToPush) ->
  let badge := renderAheadBehind ab numTagsToPush in
  (badge = VNull <->
   (ahead ab = 0 /\ behind ab = 0 /\ numTagsToPush = 0)%Z)
  /\ figure (lit "ahead") badge
     = (if ((0 <? ahead ab) || (0 <? numTagsToPush))%Z
        then Some (ahead ab + numTagsToPush)%Z else None)
  /\ figure (lit "behind") badge
     = (if (0 <? behind ab)%Z then Some (behind ab) else None).
Proof.
  intros _ _ _ Hsum.
  destruct ab as [a b]. cbn [ahead behind] in *. unfold renderAheadBehind.
  cbn [ahead behind]. rewrite (numberAdd_exact _ _ Hsum).
  destruct (Z.eqb_spec a 0) as [Ha|Ha];
    destruct (Z.eqb_spec b 0) as [Hb|Hb];
    destruct (Z.eqb_spec numTagsToPush 0) as [Hn|Hn];
    cbn [andb];
    destruct (Z.ltb_spec 0 a) as [Ha'|Ha'];
    destruct (Z.ltb_spec 0 b) as [Hb'|Hb'];
    destruct (Z.ltb_spec 0 numTagsToPush) as [Hn'|Hn'];
    try lia;
    (split; [split; [try discriminate; auto | intros (? & ? & ?); try lia; auto]
            | split; reflexivity]).
Qed.

Lemma renderAheadBehind_figures_witness :
  figure (lit "ahead") (renderAheadBehind {| ahead := 2; behind := 1 |} 3)
  = Some 5%Z
  /\ figure (lit "behind") (renderAheadBehind {| ahead := 2; behind := 1 |} 3)
     = Some 1%Z.
Proof.
  split;
    apply (@renderAheadBehind_figures {| ahead := 2; behind := 1 |} 3);
    unfold exactInteger; cbn [ahead behind]; lia.
Defined.

(** C4. Each of the four click handlers makes two dispatcher calls and
    returns: first [closeFoldout(FoldoutType.PushPull)], then one method
    that is handed the current repository: [push], [confirmOrForcePush],
    [pull], and [fetch] with [FetchType.UserInitiatedTask]. *)
Theorem click_handlers_close_then_dispatch
    (props : IPushPullButtonProps) (settle : Dispatcher.Call -> Settled) :
  run settle (push props)
  = ([ Invoked (Dispatcher.closeFoldout PushPull);
       Invoked (Dispatcher.push (repository props)) ], Returned tt)
  /\ run settle (pull props)
     = ([ Invoked (Dispatcher.closeFoldout PushPull);
          Invoked (Dispatcher.pull (repository props)) ], Returned tt)
  /\ run settle (fetch props)
     = ([ Invoked (Dispatcher.closeFoldout PushPull);
          Invoked (Dispatcher.fetch (repository props) UserInitiatedTask) ],
        Returned tt)
  /\ run settle (forcePushWithLease props)
     = ([ Invoked (Dispatcher.closeFoldout PushPull);
          Invoked (Dispatcher.confirmOrForcePush (repository props)) ],
        Returned tt)
  /\ Forall
       (fun handler =>
          exists method,
            invocations (trace settle handler)
            = [Dispatcher.closeFoldout PushPull; method]
            /\ Dispatcher.repositoryOf method = Some (repository props))
       (clickHandlers props).
Proof.
  repeat (split; [reflexivity|]).
  unfold clickHandlers.
  repeat (constructor; [eexists; split; reflexivity|]).
  constructor.
Qed.

(** C9. Force-push takes precedence over pull: with no progress, a remote
    name, a tip that is neither unborn nor detached, an upstream whose
    ahead, behind and tag counts are not all zero, and [isForcePush] set,
    the button is the force-push variant, whatever the behind count. *)
Theorem renderButton_force_push_first
    (props : IPushPullButtonProps) (remote : JsString) (ab : IAheadBehind) :
  progress props = None ->
  remoteName props = Some remote ->
  tipState props <> Unborn ->
  tipState props <> Detached ->
  aheadBehind props = Some ab ->
  ~ (ahead ab = 0 /\ behind ab = 0 /\ numTagsToPush props = 0)%Z ->
  isForcePush props = true ->
  renderButton props
  = forcePushButton props remote ab (numTagsToPush props) (lastFetched props)
      "this.forcePushWithLease"
  /\ propOf "title" (renderButton props)
     = Some (PStr (lit "Force push " ++ remote))
  /\ propOf "icon" (renderButton props) = Some forcePushIcon
  /\ propOf "onClick" (renderButton props)
     = Some (PRef "this.forcePushWithLease").
Proof.
  intros Hprogress Hremote Hunborn Hdetached Hab Hcounts Hforce.
  assert (Hrender :
    renderButton props
    = forcePushButton props remote ab (numTagsToPush props)
        (lastFetched props) "this.forcePushWithLease").
  { unfold renderButton. rewrite Hprogress, Hremote, Hab, Hforce.
    destruct (tipState props); try congruence; cbn [isUnborn isDetached];
      destruct (Z.eqb_spec (ahead ab) 0);
      destruct (Z.eqb_spec (behind ab) 0);
      destruct (Z.eqb_spec (numTagsToPush props) 0);
      cbn [andb]; try reflexivity; exfalso; apply Hcounts; auto. }
  rewrite Hrender. repeat split; reflexivity.
Qed.

Lemma renderButton_force_push_first_witness :
  (0 < behind {| ahead := 2; behind := 3 |})%Z
  /\ propOf "title" (renderButton Scenarios.behind_and_force_push)
     = Some (PStr (lit "Force push origin")).
Proof.
  split; [reflexivity|].
  apply (renderButton_force_push_first Scenarios.behind_and_force_push
           (remote := lit "origin") (ab := {| ahead := 2; behind := 3 |}));
    try reflexivity; try discriminate.
  cbn. lia.
Defined.

End PushPullButtonFacts.

(** ** The commit-author avatar *)

Section CommitMessageAvatarFacts.
Import Js VDom CommitMessageAvatar.

(** C5. With [warningType = 'misattribution'] the avatar is a button whose
    first child is the warning badge, an alert icon; and the component has
    a popover exactly when [isPopoverOpen] is set, whose header then reads
    ['This commit will be misattributed']. *)
Theorem misattribution_badge_and_header
    (darwin : bool) (props : ICommitMessageAvatarProps)
    (state : ICommitMessageAvatarState) :
  warningType props = misattribution ->
  avatarButton (render darwin props state)
  = Some (VElem "Button"
            [ ("className", PStr (lit "avatar-button"));
              ("ariaLabel",
               PStr (lit "Commit may be misattributed. View warning."));
              ("onClick", PRef "this.onAvatarClick") ]
            [ VElem "div" [("className", PStr (lit "warning-badge"))]
                [ VElem "Octicon" [("symbol", PRef "OcticonSymbol.alert")] [] ];
              avatar props ])
  /\ popoverHeader (render darwin props state)
     = (if isPopoverOpen state
        then Some (lit "This commit will be misattributed")
        else None).
Proof.
  intros Hwarning. unfold render, renderPopover. rewrite Hwarning.
  destruct (isPopoverOpen state); split; reflexivity.
Qed.

Lemma misattribution_badge_and_header_witness :
  popoverHeader (render true Scenarios.misattributed Scenarios.popoverOpen)
  = Some (lit "This commit will be misattributed").
Proof.
  apply (misattribution_badge_and_header true Scenarios.misattributed
           Scenarios.popoverOpen).
  reflexivity.
Defined.

Example onUpdateEmailClick_differs :
  run Scenarios.succeeding
    (onUpdateEmailClick Scenarios.misattributed Scenarios.popoverOpen)
  = ([ Invoked PreventDefault;
       Invoked (SetState ClosePopover);
       Invoked (OnUpdateEmail (lit "mona@work.example")) ],
     Returned tt).
Proof. reflexivity. Qed.

Example onUpdateEmailClick_same :
  run Scenarios.succeeding
    (onUpdateEmailClick Scenarios.attributed Scenarios.popoverOpen)
  = ([ Invoked PreventDefault; Invoked (SetState ClosePopover) ],
     Returned tt).
Proof. reflexivity. Qed.

Lemma emailDiffers_false_iff (props : ICommitMessageAvatarProps)
    (state : ICommitMessageAvatarState) :
  emailDiffers props state = false <-> email props = Some (accountEmail state).
Proof.
  unfold emailDiffers. destruct (email props) as [e|].
  - rewrite negb_false_iff, strictEq_true_iff. split; congruence.
  - split; discriminate.
Qed.

Lemma onUpdateEmailClick_run (props : ICommitMessageAvatarProps)
    (state : ICommitMessageAvatarState) (settle : Effect -> Settled) :
  run settle (onUpdateEmailClick props state)
  = (Invoked PreventDefault
       :: Invoked (SetState ClosePopover)
       :: (if emailDiffers props state
           then [Invoked (OnUpdateEmail (accountEmail state))]
           else []),
     Returned tt).
Proof.
  unfold onUpdateEmailClick. cbn.
  destruct (emailDiffers props state); reflexivity.
Qed.

(** C1, as stated, fails: where the emails differ, the request to close the
    popover is the second call of the handler and the call of
    [onUpdateEmail] the third, and the handler is never resumed from an
    [await]; so it is not the case that whatever precedes the close
    contains the settling of an awaited [onUpdateEmail]. *)
Lemma onUpdateEmailClick_closes_first_counterexample :
  ~ (forall before after,
       trace Scenarios.succeeding
         (onUpdateEmailClick Scenarios.misattributed Scenarios.popoverOpen)
       = before ++ Invoked (SetState ClosePopover) :: after ->
       exists e o, In (Resumed (OnUpdateEmail e) o) before).
Proof.
  intros H.
  destruct (H [Invoked PreventDefault]
              [Invoked (OnUpdateEmail (lit "mona@work.example"))]
              eq_refl) as (e & o & [Hin|[]]).
  discriminate Hin.
Qed.

(** C1, amended. The handler awaits nothing. It calls [preventDefault],
    then asks for the popover to be closed, and only then, when
    [props.email] is not the selected account email, calls [onUpdateEmail]
    with the selected email, without waiting for anything that call
    starts; then it returns. *)
Theorem onUpdateEmailClick_closes_then_calls
    (props : ICommitMessageAvatarProps) (state : ICommitMessageAvatarState)
    (settle : Effect -> Settled) :
  trace settle (onUpdateEmailClick props state)
  = Invoked PreventDefault
      :: Invoked (SetState ClosePopover)
      :: (if emailDiffers props state
          then [Invoked (OnUpdateEmail (accountEmail state))]
          else [])
  /\ existsb (@isResumed Effect) (trace settle (onUpdateEmailClick props state))
     = false
  /\ completion settle (onUpdateEmailClick props state) = Returned tt.
Proof.
  unfold trace, completion. rewrite onUpdateEmailClick_run. cbn [fst snd].
  repeat split. destruct (emailDiffers props state); reflexivity.
Qed.

(** C10. The handler always asks for the popover to be closed, and the
    popover is closed once React has applied the update. When
    [props.email] is the selected account email, [onUpdateEmail] is not
    called; when it is anything else ([undefined] included),
    [onUpdateEmail] is called once, with the selected account email. *)
Theorem onUpdateEmailClick_suppresses_noop
    (props : ICommitMessageAvatarProps) (state : ICommitMessageAvatarState)
    (settle : Effect -> Settled) :
  let t := trace settle (onUpdateEmailClick props state) in
  In (SetState ClosePopover) (invocations t)
  /\ isPopoverOpen (stateAfter state t) = false
  /\ (email props = Some (accountEmail state) ->
      filter isOnUpdateEmail (invocations t) = [])
  /\ (email props <> Some (accountEmail state) ->
      filter isOnUpdateEmail (invocations t)
      = [OnUpdateEmail (accountEmail state)]).
Proof.
  cbv zeta. unfold trace. rewrite onUpdateEmailClick_run. cbn [fst].
  pose proof (emailDiffers_false_iff props state) as Hdiff.
  destruct (emailDiffers props state); unfold stateAfter; cbn;
    (split; [right; left; reflexivity|]);
    (split; [destruct state as [[|] selected]; reflexivity|]);
    split; try reflexivity.
  - intros Heq. apply Hdiff in Heq. discriminate.
  - intros Hne. exfalso. apply Hne, Hdiff. reflexivity.
Qed.

Lemma onUpdateEmailClick_suppresses_noop_witness :
  filter isOnUpdateEmail
    (invocations
       (trace Scenarios.succeeding
          (onUpdateEmailClick Scenarios.attributed Scenarios.popoverOpen)))
  = []
  /\ filter isOnUpdateEmail
       (invocations
          (trace Scenarios.succeeding
             (onUpdateEmailClick Scenarios.misattributed
                Scenarios.popoverOpen)))
     = [OnUpdateEmail (lit "mona@work.example")].
Proof.
  split.
  - apply (onUpdateEmailClick_suppresses_noop Scenarios.attributed
             Scenarios.popoverOpen Scenarios.succeeding).
    reflexivity.
  - apply (onUpdateEmailClick_suppresses_noop Scenarios.misattributed
             Scenarios.popoverOpen Scenarios.succeeding).
    discriminate.
Defined.

End CommitMessageAvatarFacts.

(** ** Clicks outside the popover *)

Section PopoverClickFacts.
Import Js Popover.

Example onDocumentClick_unmounted :
  trace Scenarios.succeeding
    (onDocumentClick ChainDocument.parentElement ChainDocument.contains
       {| onClickOutside := true; onMousedownOutside := false |}
       None {| target := NodeTarget 1 |})
  = [].
Proof. reflexivity. Qed.

(** C7. For a mounted popover whose container has a parent element, and a
    click whose target is a DOM node: when the parent element does not
    contain the target and [onClickOutside] is provided, the handler calls
    it, once, with the event; when the parent element contains the target,
    the handler calls nothing. *)
Theorem onDocumentClick_outside_only
    (DomNode : Type) (parentElement : DomNode -> option DomNode)
    (contains : DomNode -> DomNode -> bool)
    (props : IPopoverProps) (container parent clicked : DomNode)
    (event : MouseEvent DomNode)
    (settle : Effect DomNode -> Settled) :
  parentElement container = Some parent ->
  target event = NodeTarget clicked ->
  (contains parent clicked = false ->
   onClickOutside props = true ->
   trace settle
     (onDocumentClick parentElement contains props (Some container) event)
   = [Invoked (OnClickOutside event)])
  /\ (contains parent clicked = true ->
      trace settle
        (onDocumentClick parentElement contains props (Some container) event)
      = []).
Proof.
  intros Hparent Htarget.
  unfold onDocumentClick, isOutside. rewrite Hparent, Htarget.
  split.
  - intros Hout Hprovided. rewrite Hout, Hprovided. reflexivity.
  - intros Hin. rewrite Hin. reflexivity.
Qed.

Lemma onDocumentClick_outside_only_witness :
  trace Scenarios.succeeding
    (onDocumentClick ChainDocument.parentElement ChainDocument.contains
       {| onClickOutside := true; onMousedownOutside := false |}
       (Some 3) {| target := NodeTarget 1 |})
  = [Invoked (OnClickOutside {| target := NodeTarget 1 |})]
  /\ trace Scenarios.succeeding
       (onDocumentClick ChainDocument.parentElement ChainDocument.contains
          {| onClickOutside := true; onMousedownOutside := false |}
          (Some 3) {| target := NodeTarget 5 |})
     = [].
Proof.
  split.
  - apply (@onDocumentClick_outside_only nat
             ChainDocument.parentElement ChainDocument.contains
             {| onClickOutside := true; onMousedownOutside := false |}
             3 2 1 {| target := NodeTarget 1 |} Scenarios.succeeding);
      reflexivity.
  - apply (@onDocumentClick_outside_only nat
             ChainDocument.parentElement ChainDocument.contains
             {| onClickOutside := true; onMousedownOutside := false |}
             3 2 5 {| target := NodeTarget 5 |} Scenarios.succeeding);
      reflexivity.
Defined.

End PopoverClickFacts.

(** ** The delete-remote-branch dialog *)

Section DeleteRemoteBranchFacts.
Import Js Models DeleteRemoteBranch.

Example deleteBranch_succeeds :
  run Scenarios.succeeding (deleteBranch Scenarios.deleteTopic)
  = ([ Invoked (SetState {| isDeleting := true |});
       Invoked (deleteRemoteBranch (repository Scenarios.deleteTopic)
                  (branch Scenarios.deleteTopic));
       Resumed (deleteRemoteBranch (repository Scenarios.deleteTopic)
                  (branch Scenarios.deleteTopic)) Fulfilled;
       Invoked (onDeleted (repository Scenarios.deleteTopic));
       Invoked onDismissed ],
     Returned tt).
Proof. reflexivity. Qed.

(** C3, as stated, fails: when the promise of [deleteRemoteBranch] settles
    by rejecting, the handler is left at the [await], and [onDeleted] is
    not called. *)
Lemma deleteBranch_rejected_counterexample :
  ~ In (Invoked (onDeleted (repository Scenarios.deleteTopic)))
       (trace Scenarios.failing (deleteBranch Scenarios.deleteTopic)).
Proof.
  cbn. intros [H|[H|[H|[]]]]; discriminate H.
Qed.

(** C3, amended. The handler has no catch and no retry. It sets
    [isDeleting] to true, calls [deleteRemoteBranch] once with the
    repository and the branch, and awaits it. When that call fulfils, it
    calls [onDeleted] with the repository, then [onDismissed], and returns.
    When that call rejects, the rejection leaves the handler: nothing more
    is called. Either way [isDeleting] is left true. *)
Theorem deleteBranch_linear
    (props : IDeleteRemoteBranchProps) (settle : Effect -> Settled) :
  let deletion := deleteRemoteBranch (repository props) (branch props) in
  run settle (deleteBranch props)
  = match settle deletion with
    | Fulfilled =>
        ([ Invoked (SetState {| isDeleting := true |});
           Invoked deletion;
           Resumed deletion Fulfilled;
           Invoked (onDeleted (repository props));
           Invoked onDismissed ],
         Returned tt)
    | Rejected reason =>
        ([ Invoked (SetState {| isDeleting := true |});
           Invoked deletion;
           Resumed deletion (Rejected reason) ],
         Threw unit reason)
    end
  /\ isDeleting
       (stateAfter initialState (trace settle (deleteBranch props)))
     = true.
Proof.
  cbv zeta. unfold trace, stateAfter, deleteBranch. cbn.
  destruct (settle (deleteRemoteBranch (repository props) (branch props)));
    split; reflexivity.
Qed.

End DeleteRemoteBranchFacts.

(* ================================================================= *)
(** * Further properties of the views *)

(** ** The pull-request quick view *)

Section PullRequestQuickViewMore.
Import Js VDom PullRequestQuickView.

(** X1. The markdown handed to the renderer is never blank: whatever the
    body, [displayBody] has a code unit that is not white space.
    Consequently running its result through [displayBody] again changes
    nothing. *)
Theorem displayBody_never_blank (body : Nullable JsString) :
  forallb isWhiteSpace (displayBody body) = false
  /\ displayBody (JsValue (displayBody body)) = displayBody body.
Proof.
  assert (Hblank : forallb isWhiteSpace (displayBody body) = false).
  { rewrite displayBody_spec. destruct body as [| |b]; try reflexivity.
    destruct (forallb isWhiteSpace b) eqn:Hb; [reflexivity | exact Hb]. }
  split; [exact Hblank|].
  rewrite (displayBody_spec (JsValue _)), Hblank. reflexivity.
Qed.

End PullRequestQuickViewMore.

(** ** The commit-author avatar *)

Section CommitMessageAvatarMore.
Import Js VDom CommitMessageAvatar.

(** X2. With a warning shown, a click on the avatar button calls
    [preventDefault] and toggles the popover: once React has applied the
    update, [isPopoverOpen] is the opposite of what it was and the selected
    email is untouched. *)
Theorem onAvatarClick_toggles
    (props : ICommitMessageAvatarProps) (state : ICommitMessageAvatarState)
    (settle : Effect -> Settled) :
  warningType props <> none ->
  trace settle (onAvatarClick props state)
  = [ Invoked PreventDefault;
      Invoked (SetState (if isPopoverOpen state then ClosePopover
                         else OpenPopover)) ]
  /\ stateAfter state (trace settle (onAvatarClick props state))
     = {| isPopoverOpen := negb (isPopoverOpen state);
          accountEmail := accountEmail state |}.
Proof.
  intros Hwarning. unfold onAvatarClick.
  destruct (warningType props); try congruence;
    destruct state as [[|] selected]; split; reflexivity.
Qed.

Lemma onAvatarClick_toggles_witness :
  stateAfter Scenarios.popoverOpen
    (trace Scenarios.succeeding
       (onAvatarClick Scenarios.misattributed Scenarios.popoverOpen))
  = {| isPopoverOpen := false; accountEmail := lit "mona@work.example" |}.
Proof.
  apply (onAvatarClick_toggles Scenarios.misattributed Scenarios.popoverOpen
           Scenarios.succeeding).
  discriminate.
Defined.

(** X3. The avatar is rendered once, either as the warning button or under
    the tooltip, never both: the button exactly when [warningType] is not
    ['none'], the tooltip exactly when it is. Without a warning a call of
    [onAvatarClick] does nothing at all. *)
Theorem avatar_button_or_tooltip
    (darwin : bool) (props : ICommitMessageAvatarProps)
    (state : ICommitMessageAvatarState) (settle : Effect -> Settled) :
  match warningType props with
  | none =>
      avatarButton (render darwin props state) = None
      /\ tooltipAvatar (render darwin props state)
         = Some (VElem "ToggledtippedContent"
                   [ ("tooltip", getTitle props);
                     ("direction", PRef "TooltipDirection.NORTH");
                     ("ariaLabel", PStr (lit "Show Commit Author Details")) ]
                   [ avatar props ])
      /\ trace settle (onAvatarClick props state) = []
  | _ =>
      tooltipAvatar (render darwin props state) = None
      /\ (exists label,
            avatarButton (render darwin props state)
            = Some (VElem "Button"
                      [ ("className", PStr (lit "avatar-button"));
                        ("ariaLabel", PStr label);
                        ("onClick", PRef "this.onAvatarClick") ]
                      [ renderWarningBadge; avatar props ]))
  end.
Proof.
  unfold render, onAvatarClick.
  destruct (warningType props); destruct (isPopoverOpen state);
    repeat split; try reflexivity; eexists; reflexivity.
Qed.

(** X4. Choosing an entry of the email selector selects it and leaves the
    popover as it is; an empty value is ignored, with no state update
    requested. *)
Theorem onSelectedGitHubEmailChange_selects
    (state : ICommitMessageAvatarState) (value : JsString)
    (settle : Effect -> Settled) :
  stateAfter state (trace settle (onSelectedGitHubEmailChange value))
  = {| isPopoverOpen := isPopoverOpen state;
       accountEmail := match value with
                       | [] => accountEmail state
                       | _ :: _ => value
                       end |}
  /\ (value = [] -> trace settle (onSelectedGitHubEmailChange value) = []).
Proof.
  destruct value as [|c rest]; destruct state as [o selected]; split;
    try reflexivity; discriminate.
Qed.

Lemma onSelectedGitHubEmailChange_selects_witness :
  trace Scenarios.succeeding (onSelectedGitHubEmailChange []) = [].
Proof.
  apply (onSelectedGitHubEmailChange_selects Scenarios.popoverOpen []
           Scenarios.succeeding).
  reflexivity.
Defined.

(** X5. Selecting an email and then clicking Update Email hands the newly
    selected email to [onUpdateEmail], unless it is the email already
    configured, in which case [onUpdateEmail] is not called. *)
Theorem select_then_update
    (props : ICommitMessageAvatarProps) (state : ICommitMessageAvatarState)
    (value : JsString) (settle : Effect -> Settled) :
  value <> [] ->
  let selected :=
    stateAfter state (trace settle (onSelectedGitHubEmailChange value)) in
  filter isOnUpdateEmail
    (invocations (trace settle (onUpdateEmailClick props selected)))
  = (if emailDiffers props selected then [OnUpdateEmail value] else [])
  /\ (emailDiffers props selected = false <-> email props = Some value).
Proof.
  intros Hvalue selected.
  assert (Hsel : accountEmail selected = value).
  { subst selected. destruct value as [|c rest]; [congruence|].
    destruct state; reflexivity. }
  split.
  - unfold trace. rewrite onUpdateEmailClick_run. cbn [fst].
    destruct (emailDiffers props selected); cbn; rewrite ?Hsel; reflexivity.
  - rewrite emailDiffers_false_iff, Hsel. tauto.
Qed.

Lemma select_then_update_witness :
  filter isOnUpdateEmail
    (invocations
       (trace Scenarios.succeeding
          (onUpdateEmailClick Scenarios.misattributed
             (stateAfter Scenarios.popoverOpen
                (trace Scenarios.succeeding
                   (onSelectedGitHubEmailChange (lit "mona@users.example")))))))
  = [OnUpdateEmail (lit "mona@users.example")].
Proof.
  apply (select_then_update Scenarios.misattributed Scenarios.popoverOpen
           (value := lit "mona@users.example") Scenarios.succeeding).
  discriminate.
Defined.

(** X6. Ignore and the repository-settings link both close the popover and
    keep the selected email, and neither calls [onUpdateEmail]. Ignore
    calls nothing else but [preventDefault]; the settings link calls
    [onOpenRepositorySettings] once, after asking for the close. *)
Theorem ignore_and_settings_close_without_update
    (state : ICommitMessageAvatarState) (settle : Effect -> Settled) :
  trace settle onIgnoreClick
  = [Invoked PreventDefault; Invoked (SetState ClosePopover)]
  /\ trace settle onRepositorySettingsClick
     = [Invoked (SetState ClosePopover); Invoked OnOpenRepositorySettings]
  /\ stateAfter state (trace settle onIgnoreClick)
     = {| isPopoverOpen := false; accountEmail := accountEmail state |}
  /\ stateAfter state (trace settle onRepositorySettingsClick)
     = {| isPopoverOpen := false; accountEmail := accountEmail state |}.
Proof.
  destruct state as [[|] selected]; repeat split; reflexivity.
Qed.

(** X7. The open popover's selector shows the currently selected email and
    offers the account's emails, each once per entry and in the order of
    [accountEmails]. *)
Theorem popover_select_offers_account_emails
    (darwin : bool) (props : ICommitMessageAvatarProps)
    (state : ICommitMessageAvatarState) :
  isPopoverOpen state = true ->
  exists select,
    popoverSelect (render darwin props state) = Some select
    /\ propOf "value" select = Some (PStr (accountEmail state))
    /\ optionValues select
       = map (fun e => Some (PStr e)) (accountEmails props).
Proof.
  intros Hopen. unfold render, renderPopover. rewrite Hopen.
  destruct props as [u configured w errors enterprise emails preferred].
  cbn [warningType email emailRuleErrors accountEmails].
  destruct w; destruct configured; destruct errors;
    (eexists; split; [reflexivity|]; split; [reflexivity|]);
    unfold optionValues; cbn [childrenOf]; rewrite map_map; reflexivity.
Qed.

Lemma popover_select_offers_account_emails_witness :
  exists select,
    popoverSelect (render false Scenarios.misattributed Scenarios.popoverOpen)
    = Some select
    /\ propOf "value" select = Some (PStr (lit "mona@work.example"))
    /\ optionValues select
       = [ Some (PStr (lit "mona@work.example"));
           Some (PStr (lit "mona@users.example")) ].
Proof.
  apply (popover_select_offers_account_emails false Scenarios.misattributed
           Scenarios.popoverOpen).
  reflexivity.
Defined.

(** X8. A freshly constructed avatar shows no popover. With a warning
    shown, one click on the avatar button opens it, with the warning's
    header and the preferred account email selected. *)
Theorem first_click_opens_popover
    (darwin : bool) (props : ICommitMessageAvatarProps)
    (settle : Effect -> Settled) :
  warningType props <> none ->
  let clicked :=
    stateAfter (initialState props)
      (trace settle (onAvatarClick props (initialState props))) in
  popoverHeader (render darwin props (initialState props)) = None
  /\ popoverHeader (render darwin props clicked)
     = Some match warningType props with
            | disallowedEmail => lit "This email address may be disallowed"
            | _ => lit "This commit will be misattributed"
            end
  /\ accountEmail clicked = preferredAccountEmail props.
Proof.
  intros Hwarning clicked.
  destruct (onAvatarClick_toggles props (initialState props) settle Hwarning)
    as [_ Hstate].
  subst clicked. rewrite Hstate. cbn [initialState isPopoverOpen negb].
  unfold render, renderPopover. cbn [isPopoverOpen accountEmail].
  destruct (warningType props); try congruence; repeat split; reflexivity.
Qed.

Lemma first_click_opens_popover_witness :
  popoverHeader
    (render false Scenarios.misattributed
       (stateAfter (initialState Scenarios.misattributed)
          (trace Scenarios.succeeding
             (onAvatarClick Scenarios.misattributed
                (initialState Scenarios.misattributed)))))
  = Some (lit "This commit will be misattributed").
Proof.
  apply (first_click_opens_popover false Scenarios.misattributed
           Scenarios.succeeding).
  discriminate.
Defined.

End CommitMessageAvatarMore.

(** ** The push/pull button *)

Section PushPullButtonMore.
Import Js VDom Models PushPullButton.

(** The variants of the button, with the condition under which
    [renderButton] reaches each. *)
Lemma renderButton_cases (props : IPushPullButtonProps) :
  (exists p,
     progress props = Some p
     /\ renderButton props
        = progressButton p (networkActionInProgress props))
  \/ (progress props = None /\ remoteName props = None
      /\ renderButton props = publishRepositoryButton "this.push")
  \/ (exists remote,
        progress props = None /\ remoteName props = Some remote
        /\ ((tipState props = Unborn
             /\ renderButton props = unbornRepositoryButton)
            \/ (tipState props = Detached
                /\ renderButton props
                   = detachedHeadButton (rebaseInProgress props))
            \/ (tipState props <> Unborn /\ tipState props <> Detached
                /\ aheadBehind props = None
                /\ renderButton props
                   = publishBranchButton props
                       (match gitHubRepository (repository props) with
                        | Some _ => true
                        | None => false
                        end)
                       "this.push" (shouldNudge props))
            \/ (exists ab,
                  tipState props <> Unborn /\ tipState props <> Detached
                  /\ aheadBehind props = Some ab
                  /\ (((ahead ab = 0 /\ behind ab = 0
                        /\ numTagsToPush props = 0)%Z
                       /\ renderButton props
                          = fetchButton remote ab (numTagsToPush props)
                              (lastFetched props) "this.fetch")
                      \/ (~ (ahead ab = 0 /\ behind ab = 0
                             /\ numTagsToPush props = 0)%Z
                          /\ ((isForcePush props = true
                               /\ renderButton props
                                  = forcePushButton props remote ab
                                      (numTagsToPush props)
                                      (lastFetched props)
                                      "this.forcePushWithLease")
                              \/ (isForcePush props = false
                                  /\ (0 < behind ab)%Z
                                  /\ renderButton props
                                     = pullButton props remote ab
                                         (numTagsToPush props)
                                         (lastFetched props)
                                         (match pullWithRebase props with
                                          | Some b => b
                                          | None => false
                                          end)
                                         "this.pull")
                              \/ (isForcePush props = false
                                  /\ (behind ab <= 0)%Z
                                  /\ renderButton props
                                     = pushButton props remote ab
                                         (numTagsToPush props)
                                         (lastFetched props)
                                         "this.push"))))))).
Proof.
  unfold renderButton.
  destruct (progress props) as [p|]; [left; eauto|right].
  destruct (remoteName props) as [remote|]; [right|left; auto].
  exists remote. split; [reflexivity|]. split; [reflexivity|].
  destruct (tipState props) eqn:Htip; cbn [isUnborn isDetached];
    [ | left; auto | right; left; auto | ];
    (right; right;
     destruct (aheadBehind props) as [ab|];
     [ right; exists ab;
       split; [discriminate|]; split; [discriminate|];
       split; [reflexivity|]
     | left; repeat split; discriminate ]);
    (destruct (Z.eqb_spec (ahead ab) 0);
     destruct (Z.eqb_spec (behind ab) 0);
     destruct (Z.eqb_spec (numTagsToPush props) 0);
     cbn [andb];
     [ left; auto | right; split; [intros (? & ? & ?); contradiction|] .. ]);
    (destruct (isForcePush props); [left; auto|right];
     destruct (Z.ltb_spec 0 (behind ab)); [left; auto|right; auto]).
Qed.

Ltac renderButton_variants props :=
  destruct (renderButton_cases props) as
    [ (?p & ?Hprogress & Hrb)
    | [ (?Hprogress & ?Hremote & Hrb)
      | (?remote & ?Hprogress & ?Hremote
         & [ (?Htip & Hrb)
           | [ (?Htip & Hrb)
             | [ (?Hunborn & ?Hdetached & ?Hab & Hrb)
               | (?ab & ?Hunborn & ?Hdetached & ?Hab
                  & [ (?Hzero & Hrb)
                    | (?Hcounts
                       & [ (?Hforce & Hrb)
                         | [ (?Hforce & ?Hbehind & Hrb)
                           | (?Hforce & ?Hbehind & Hrb) ] ]) ]) ] ] ]) ] ];
  rewrite Hrb.

Lemma renderAheadBehind_null_iff (ab : IAheadBehind) (n : Z) :
  renderAheadBehind ab n = VNull
  <-> (ahead ab = 0 /\ behind ab = 0 /\ n = 0)%Z.
Proof.
  unfold renderAheadBehind.
  destruct (Z.eqb_spec (ahead ab) 0);
    destruct (Z.eqb_spec (behind ab) 0);
    destruct (Z.eqb_spec n 0); cbn [andb];
    split; try discriminate; try tauto; auto.
Qed.

(** X9. The button cannot be clicked exactly while an operation is in
    progress, or when there is a remote but HEAD is unborn or detached: in
    those cases, and only in those, it is rendered disabled and without an
    [onClick] handler. *)
Theorem renderButton_disabled_iff (props : IPushPullButtonProps) :
  (propOf "disabled" (renderButton props) = Some (PBool true)
   <-> (progress props <> None
        \/ (remoteName props <> None
            /\ (tipState props = Unborn \/ tipState props = Detached))))
  /\ (propOf "onClick" (renderButton props) = None
      <-> (progress props <> None
           \/ (remoteName props <> None
               /\ (tipState props = Unborn \/ tipState props = Detached)))).
Proof.
  renderButton_variants props; cbn;
    split; split; try discriminate; try congruence;
    intuition (try congruence; try discriminate).
Qed.

(** X10. The button never offers a plain push of a branch that is behind
    its upstream: when the branch has an upstream and the button's handler
    is [push], the behind count is not positive, the branch is not marked
    for force push, and there is something to push. *)
Theorem push_never_when_behind
    (props : IPushPullButtonProps) (ab : IAheadBehind) :
  propOf "onClick" (renderButton props) = Some (PRef "this.push") ->
  remoteName props <> None ->
  aheadBehind props = Some ab ->
  (behind ab <= 0)%Z
  /\ isForcePush props = false
  /\ ~ (ahead ab = 0 /\ behind ab = 0 /\ numTagsToPush props = 0)%Z.
Proof.
  intros Hclick Hhas Hupstream. revert Hclick.
  renderButton_variants props; cbn; intros Hclick;
    try discriminate; try congruence.
  assert (ab0 = ab) by congruence. subst ab0.
  split; [assumption|]. split; assumption.
Qed.

Lemma push_never_when_behind_witness :
  (behind {| ahead := 2; behind := 0 |} <= 0)%Z
  /\ isForcePush Scenarios.ahead_only = false
  /\ ~ (ahead {| ahead := 2; behind := 0 |} = 0
        /\ behind {| ahead := 2; behind := 0 |} = 0
        /\ numTagsToPush Scenarios.ahead_only = 0)%Z.
Proof.
  apply (push_never_when_behind Scenarios.ahead_only
           (ab := {| ahead := 2; behind := 0 |})).
  - reflexivity.
  - discriminate.
  - reflexivity.
Defined.

(** X11. Pull is the button's handler exactly when nothing is in progress,
    there is a remote, HEAD is neither unborn nor detached, the branch is
    behind its upstream, and it is not marked for force push. *)
Theorem pull_iff_behind (props : IPushPullButtonProps) :
  propOf "onClick" (renderButton props) = Some (PRef "this.pull")
  <-> (progress props = None
       /\ remoteName props <> None
       /\ tipState props <> Unborn /\ tipState props <> Detached
       /\ isForcePush props = false
       /\ exists ab, aheadBehind props = Some ab /\ (0 < behind ab)%Z).
Proof.
  renderButton_variants props; cbn; split;
    try discriminate; try congruence;
    try (intros (? & ? & ? & ? & ? & ab' & Hab' & ?);
         try congruence;
         assert (ab' = ab) by congruence; subst ab'; try congruence; lia).
  intros _. repeat (split; [congruence|]). eauto.
Qed.

(** X12. Fetch is the button's handler exactly when nothing is in progress,
    there is a remote, HEAD is neither unborn nor detached, and the branch
    is level with its upstream with no tag to push; the button then shows
    no ahead/behind badge, whatever [isForcePush] says. *)
Theorem fetch_iff_in_sync (props : IPushPullButtonProps) :
  (propOf "onClick" (renderButton props) = Some (PRef "this.fetch")
   <-> (progress props = None
        /\ remoteName props <> None
        /\ tipState props <> Unborn /\ tipState props <> Detached
        /\ exists ab,
             aheadBehind props = Some ab
             /\ (ahead ab = 0 /\ behind ab = 0
                 /\ numTagsToPush props = 0)%Z))
  /\ (propOf "onClick" (renderButton props) = Some (PRef "this.fetch") ->
      childrenOf (renderButton props) = []).
Proof.
  renderButton_variants props; cbn; (split; [split|]);
    try discriminate; try congruence; try reflexivity;
    try (intros (? & ? & ? & ? & ab' & Hab' & ?);
         try congruence;
         assert (ab' = ab) by congruence; subst ab'; try congruence; tauto).
  intros _. repeat (split; [congruence|]). eauto.
Qed.

Lemma fetch_iff_in_sync_witness :
  childrenOf (renderButton Scenarios.in_sync) = [].
Proof.
  apply (fetch_iff_in_sync Scenarios.in_sync). reflexivity.
Defined.

(** X13. The button never carries an empty badge: it has either no child,
    or one child, which is the ahead/behind badge of the branch's counts
    and is not [null]. *)
Theorem renderButton_badge_never_null (props : IPushPullButtonProps) :
  childrenOf (renderButton props) = []
  \/ exists ab,
       aheadBehind props = Some ab
       /\ childrenOf (renderButton props)
          = [renderAheadBehind ab (numTagsToPush props)]
       /\ renderAheadBehind ab (numTagsToPush props) <> VNull.
Proof.
  renderButton_variants props; cbn [childrenOf progressButton
    publishRepositoryButton unbornRepositoryButton detachedHeadButton
    publishBranchButton fetchButton forcePushButton pullButton pushButton];
    try (left; reflexivity);
    right; exists ab; (split; [assumption|]); (split; [reflexivity|]);
    rewrite renderAheadBehind_null_iff; assumption.
Qed.

(** X14. Every dropdown of the button offers Fetch first, and it offers
    Force push exactly when the button itself pulls. *)
Theorem dropdown_offers_force_push_iff_pull (props : IPushPullButtonProps) :
  (typeOf (renderButton props) = Some "ToolbarDropdown" ->
   hd_error (dropdownItemKeys (renderButton props))
   = Some (Some (PStr (lit "fetch"))))
  /\ (In (Some (PStr (lit "force-push")))
         (dropdownItemKeys (renderButton props))
      <-> propOf "onClick" (renderButton props) = Some (PRef "this.pull")).
Proof.
  renderButton_variants props; cbn;
    (split; [try discriminate; try reflexivity; auto|]);
    split; try discriminate; try congruence; try tauto;
    intros H; repeat (destruct H as [H|H]; try discriminate H);
    try contradiction; auto.
Qed.

Lemma dropdown_offers_force_push_iff_pull_witness :
  hd_error (dropdownItemKeys (renderButton Scenarios.diverged))
  = Some (Some (PStr (lit "fetch")))
  /\ In (Some (PStr (lit "force-push")))
        (dropdownItemKeys (renderButton Scenarios.diverged)).
Proof.
  split.
  - apply (dropdown_offers_force_push_iff_pull Scenarios.diverged).
    reflexivity.
  - apply (dropdown_offers_force_push_iff_pull Scenarios.diverged).
    reflexivity.
Defined.

End PushPullButtonMore.

(** ** The popover *)

Section PopoverMore.
Import Js VDom Popover.

Lemma isOutside_inside_out
    (DomNode : Type) (parentElement : DomNode -> option DomNode)
    (contains : DomNode -> DomNode -> bool)
    (ref : option DomNode) (event : MouseEvent DomNode) :
  isOutside parentElement contains ref event = true
  <-> exists container parent clicked,
        ref = Some container
        /\ parentElement container = Some parent
        /\ target event = NodeTarget clicked
        /\ contains parent clicked = false.
Proof.
  unfold isOutside. split.
  - destruct ref as [container|]; [|discriminate].
    destruct (parentElement container) as [parent|] eqn:Hp; [|discriminate].
    destruct (target event) as [clicked|]; [|discriminate].
    intros H. apply negb_true_iff in H. eauto 8.
  - intros (container & parent & clicked & -> & Hp & -> & Hc).
    rewrite Hp, Hc. reflexivity.
Qed.

(** X15. The two document listeners are guarded alike and keep apart. Each
    calls at most its own callback, once, with the event it received: the
    click listener never calls [onMousedownOutside] and the mouse-down
    listener never calls [onClickOutside]. Any call means that the
    container is mounted, has a parent element, and the target is a node
    outside that parent; so before the container is mounted, and for a
    target that is no DOM node, nothing is called. *)
Theorem document_listeners_guarded
    (DomNode : Type) (parentElement : DomNode -> option DomNode)
    (contains : DomNode -> DomNode -> bool)
    (props : IPopoverProps) (ref : option DomNode)
    (event : MouseEvent DomNode) (settle : Effect DomNode -> Settled) :
  let click :=
    trace settle (onDocumentClick parentElement contains props ref event) in
  let mousedown :=
    trace settle
      (onDocumentMouseDown parentElement contains props ref event) in
  (click = [] \/ click = [Invoked (OnClickOutside event)])
  /\ (mousedown = [] \/ mousedown = [Invoked (OnMousedownOutside event)])
  /\ (click <> [] \/ mousedown <> [] ->
      exists container parent clicked,
        ref = Some container
        /\ parentElement container = Some parent
        /\ target event = NodeTarget clicked
        /\ contains parent clicked = false).
Proof.
  cbv zeta. unfold onDocumentClick, onDocumentMouseDown.
  pose proof (isOutside_inside_out parentElement contains ref event) as Hout.
  destruct (isOutside parentElement contains ref event).
  - split; [destruct (onClickOutside props); auto|].
    split; [destruct (onMousedownOutside props); auto|].
    intros _. apply Hout. reflexivity.
  - split; [auto|]. split; [auto|].
    intros [H|H]; exfalso; apply H; reflexivity.
Qed.

Lemma document_listeners_guarded_witness :
  exists container parent clicked,
    Some 3 = Some container
    /\ ChainDocument.parentElement container = Some parent
    /\ target {| target := NodeTarget 1 |} = NodeTarget clicked
    /\ ChainDocument.contains parent clicked = false.
Proof.
  apply (@document_listeners_guarded nat
           ChainDocument.parentElement ChainDocument.contains
           {| onClickOutside := true; onMousedownOutside := false |}
           (Some 3) {| target := NodeTarget 1 |} Scenarios.succeeding).
  left. discriminate.
Defined.

(** X16. A mouse-down is treated like a click: for a mounted popover whose
    container has a parent element and a target that is a DOM node, the
    listener calls [onMousedownOutside], when provided, for a target
    outside the parent element, and calls nothing for a target inside
    it. *)
Theorem onDocumentMouseDown_outside_only
    (DomNode : Type) (parentElement : DomNode -> option DomNode)
    (contains : DomNode -> DomNode -> bool)
    (props : IPopoverProps) (container parent clicked : DomNode)
    (event : MouseEvent DomNode)
    (settle : Effect DomNode -> Settled) :
  parentElement container = Some parent ->
  target event = NodeTarget clicked ->
  trace settle
    (onDocumentMouseDown parentElement contains props (Some container) event)
  = (if negb (contains parent clicked) && onMousedownOutside props
     then [Invoked (OnMousedownOutside event)]
     else []).
Proof.
  intros Hparent Htarget.
  unfold onDocumentMouseDown, isOutside. rewrite Hparent, Htarget.
  destruct (negb (contains parent clicked) && onMousedownOutside props);
    reflexivity.
Qed.

Lemma onDocumentMouseDown_outside_only_witness :
  trace Scenarios.succeeding
    (onDocumentMouseDown ChainDocument.parentElement ChainDocument.contains
       {| onClickOutside := false; onMousedownOutside := true |}
       (Some 3) {| target := NodeTarget 0 |})
  = [Invoked (OnMousedownOutside {| target := NodeTarget 0 |})].
Proof.
  apply (@onDocumentMouseDown_outside_only nat
           ChainDocument.parentElement ChainDocument.contains
           {| onClickOutside := false; onMousedownOutside := true |}
           3 2 0 {| target := NodeTarget 0 |} Scenarios.succeeding);
    reflexivity.
Defined.

End PopoverMore.

Section PopoverRenderMore.
Import Js VDom Popover.

Variable Num : Type.
Variable toString : Num -> JsString.
Variable negate : Num -> Num.
Variable numProp : Num -> PropValue.

Lemma render_children (props : IPopoverRenderProps Num)
    (state : IPopoverState Num) (tipOffsetWidth : option Num) :
  exists tip,
    childrenOf (containerOf (render toString negate numProp props state
                               tipOffsetWidth))
    = children props ++ [tip]
    /\ tipOf (render toString negate numProp props state tipOffsetWidth)
       = tip
    /\ tip = when (notFalse (showTip props)) tip
    /\ (notFalse (showTip props) = true ->
        styleOf tip
        = spread [ ("position", PStr (lit "absolute"));
                   ("width", PNum 16);
                   ("height", PNum 16) ]
            (tipStyle toString negate numProp state tipOffsetWidth)).
Proof.
  unfold tipOf, containerOf, render. cbn [childrenOf hd].
  eexists. split; [reflexivity|]. split; [apply last_last|].
  destruct (notFalse (showTip props)); split; try reflexivity; discriminate.
Qed.

(** X17. The popover's container always has [position: fixed] and
    [zIndex: 1000] in its style and the role [dialog], whether or not a
    position has been computed; until one has been, the style has no [top]
    and no [left]. *)
Theorem container_always_fixed (props : IPopoverRenderProps Num)
    (state : IPopoverState Num) (tipOffsetWidth : option Num) :
  let container :=
    containerOf (render toString negate numProp props state tipOffsetWidth) in
  lookupProp "position" (styleOf container) = Some (PStr (lit "fixed"))
  /\ lookupProp "zIndex" (styleOf container) = Some (PNum 1000)
  /\ propOf "role" container = Some (PStr (lit "dialog"))
  /\ (position state = None ->
      lookupProp "top" (styleOf container) = None
      /\ lookupProp "left" (styleOf container) = None).
Proof.
  cbv zeta. unfold containerOf, render, styleOf, containerStyle.
  cbn [childrenOf hd propOf lookupProp String.eqb Ascii.eqb Bool.eqb].
  destruct (position state) as [p|]; repeat split; try reflexivity;
    discriminate.
Qed.

(** X18. The popover renders its children first and unchanged, followed by
    the tip. The tip is left out exactly when [showTip] is [false], and the
    focus trap is inactive exactly when [trapFocus] is [false]: a prop that
    is not given counts as [true]. *)
Theorem tip_and_focus_trap_default_on (props : IPopoverRenderProps Num)
    (state : IPopoverState Num) (tipOffsetWidth : option Num) :
  let rendered :=
    render toString negate numProp props state tipOffsetWidth in
  childrenOf (containerOf rendered) = children props ++ [tipOf rendered]
  /\ (tipOf rendered = VNull <-> showTip props = Some false)
  /\ (propOf "active" rendered = Some (PBool false)
      <-> trapFocus props = Some false).
Proof.
  cbv zeta.
  destruct (render_children props state tipOffsetWidth)
    as (tip & Hchildren & Htip & _).
  rewrite Htip. split; [exact Hchildren|].
  clear Hchildren. subst tip.
  unfold tipOf, containerOf, render. cbn [childrenOf hd propOf lookupProp
    String.eqb Ascii.eqb Bool.eqb]. rewrite last_last.
  split.
  - destruct (showTip props) as [[|]|]; cbn; split;
      try discriminate; try reflexivity.
  - destruct (trapFocus props) as [[|]|]; cbn; split;
      try discriminate; try reflexivity.
Qed.

(** X19. Once a position with an arrow has been computed, the tip sits
    outside the popover on the side that faces the anchor. For a placement
    on the top, right, bottom or left side, with or without an alignment,
    the tip's style sets the opposite side to minus the tip's width in
    pixels, whatever the arrow's own [top] and [left] are, and rotates the
    tip by 270, 0, 90 or 180 degrees. *)
Theorem tip_faces_anchor (props : IPopoverRenderProps Num)
    (x y : option Num) (arrow : Arrow Num) (width : Num)
    (side suffix : JsString) :
  In side [lit "top"; lit "right"; lit "bottom"; lit "left"] ->
  suffix = [] \/ (exists alignment, suffix = lit "-" ++ alignment) ->
  showTip props <> Some false ->
  let state :=
    {| position :=
         Some {| pos_x := x; pos_y := y; placement := side ++ suffix;
                 middlewareData_arrow := Some arrow |} |} in
  let style :=
    styleOf (tipOf (render toString negate numProp props state
                      (Some width))) in
  exists opposite angle,
    In (side, opposite, angle)
       [ (lit "top", "bottom", lit "270deg");
         (lit "right", "left", lit "0deg");
         (lit "bottom", "top", lit "90deg");
         (lit "left", "right", lit "180deg") ]
    /\ lookupProp opposite style
       = Some (PStr (toString (negate width) ++ lit "px"))
    /\ lookupProp "transform" style
       = Some (PStr (lit "rotate(" ++ angle ++ lit ")"))
    /\ lookupProp "position" style = Some (PStr (lit "absolute")).
Proof.
  intros Hside Hsuffix Hshow state style.
  destruct (render_children props state (Some width))
    as (tip & _ & Htip & _ & Hstyle).
  assert (Hon : notFalse (showTip props) = true).
  { destruct (showTip props) as [[|]|] eqn:Hprop; try reflexivity.
    congruence. }
  subst style. rewrite Htip, (Hstyle Hon). clear Htip Hstyle tip.
  unfold tipStyle, state. cbn [position middlewareData_arrow placement].
  assert (Hsideof : sideOf (side ++ suffix) = side).
  { destruct Hside as [<-|[<-|[<-|[<-|[]]]]];
      destruct Hsuffix as [->|(alignment & ->)]; reflexivity. }
  rewrite Hsideof.
  destruct Hside as [<-|[<-|[<-|[<-|[]]]]].
  - exists "bottom", (lit "270deg"). repeat split; cbn; auto.
  - exists "left", (lit "0deg"). repeat split; cbn; auto.
  - exists "top", (lit "90deg"). repeat split; cbn; auto.
  - exists "right", (lit "180deg"). repeat split; cbn; auto 6.
Qed.

End PopoverRenderMore.

Lemma tip_faces_anchor_witness :
  exists opposite angle,
    In (Js.lit "right", opposite, angle)
       [ (Js.lit "top", "bottom", Js.lit "270deg");
         (Js.lit "right", "left", Js.lit "0deg");
         (Js.lit "bottom", "top", Js.lit "90deg");
         (Js.lit "left", "right", Js.lit "180deg") ]
    /\ VDom.lookupProp opposite
         (Popover.styleOf
            (Popover.tipOf
               (Popover.render Js.integerToString Z.opp VDom.PNum
                  {| Popover.trapFocus := None;
                     Popover.className := None;
                     Popover.appearEffect := None;
                     Popover.ariaLabelledby := None;
                     Popover.showTip := None;
                     Popover.minHeight := None;
                     Popover.children := [] |}
                  {| Popover.position :=
                       Some {| Popover.pos_x := Some 120%Z;
                               Popover.pos_y := Some 40%Z;
                               Popover.placement :=
                                 Js.lit "right" ++ Js.lit "-start";
                               Popover.middlewareData_arrow :=
                                 Some {| Popover.arrow_x := None;
                                         Popover.arrow_y := Some 12%Z |} |} |}
                  (Some 16%Z))))
       = Some (VDom.PStr (Js.integerToString (- 16) ++ Js.lit "px"))
    /\ VDom.lookupProp "transform"
         (Popover.styleOf
            (Popover.tipOf
               (Popover.render Js.integerToString Z.opp VDom.PNum
                  {| Popover.trapFocus := None;
                     Popover.className := None;
                     Popover.appearEffect := None;
                     Popover.ariaLabelledby := None;
                     Popover.showTip := None;
                     Popover.minHeight := None;
                     Popover.children := [] |}
                  {| Popover.position :=
                       Some {| Popover.pos_x := Some 120%Z;
                               Popover.pos_y := Some 40%Z;
                               Popover.placement :=
                                 Js.lit "right" ++ Js.lit "-start";
                               Popover.middlewareData_arrow :=
                                 Some {| Popover.arrow_x := None;
                                         Popover.arrow_y := Some 12%Z |} |} |}
                  (Some 16%Z))))
       = Some (VDom.PStr (Js.lit "rotate(" ++ angle ++ Js.lit ")"))
    /\ VDom.lookupProp "position"
         (Popover.styleOf
            (Popover.tipOf
               (Popover.render Js.integerToString Z.opp VDom.PNum
                  {| Popover.trapFocus := None;
                     Popover.className := None;
                     Popover.appearEffect := None;
                     Popover.ariaLabelledby := None;
                     Popover.showTip := None;
                     Popover.minHeight := None;
                     Popover.children := [] |}
                  {| Popover.position :=
                       Some {| Popover.pos_x := Some 120%Z;
                               Popover.pos_y := Some 40%Z;
                               Popover.placement :=
                                 Js.lit "right" ++ Js.lit "-start";
                               Popover.middlewareData_arrow :=
                                 Some {| Popover.arrow_x := None;
                                         Popover.arrow_y := Some 12%Z |} |} |}
                  (Some 16%Z))))
       = Some (VDom.PStr (Js.lit "absolute")).
Proof.
  apply (@tip_faces_anchor Z Js.integerToString Z.opp VDom.PNum
           {| Popover.trapFocus := None;
              Popover.className := None;
              Popover.appearEffect := None;
              Popover.ariaLabelledby := None;
              Popover.showTip := None;
              Popover.minHeight := None;
              Popover.children := [] |}
           (Some 120%Z) (Some 40%Z)
           {| Popover.arrow_x := None; Popover.arrow_y := Some 12%Z |}
           16%Z (Js.lit "right") (Js.lit "-start")).
  - right. left. reflexivity.
  - right. exists (Js.lit "start"). reflexivity.
  - discriminate.
Defined.

Section PopoverLifecycleMore.
Import Js Popover.

Lemma callFloatingCleanUp_stops (l : Lifecycle) :
  one_subscription l -> subscriptions (callFloatingCleanUp l) = [].
Proof.
  unfold callFloatingCleanUp. intros [Hnone|(s & Hone & Hheld)].
  - destruct (floatingCleanUp l); cbn [subscriptions]; rewrite ?Hnone;
      reflexivity.
  - rewrite Hheld. cbn [subscriptions]. rewrite Hone. cbn.
    rewrite Nat.eqb_refl. reflexivity.
Qed.

Lemma setupPosition_one_subscription (anchor : Nullable nat)
    (container : option nat) (l : Lifecycle) :
  one_subscription l -> one_subscription (setupPosition anchor container l).
Proof.
  intros Hinv. pose proof (callFloatingCleanUp_stops Hinv) as Hstopped.
  unfold setupPosition.
  destruct anchor as [| |a]; try (left; exact Hstopped).
  destruct container as [c|]; [|left; exact Hstopped].
  right. eexists. cbn [subscriptions floatingCleanUp]. rewrite Hstopped.
  split; reflexivity.
Qed.

Lemma setupPosition_listeners (anchor : Nullable nat)
    (container : option nat) (l : Lifecycle) :
  documentListeners (setupPosition anchor container l) = documentListeners l.
Proof.
  unfold setupPosition, callFloatingCleanUp.
  destruct (floatingCleanUp l); destruct anchor; destruct container;
    reflexivity.
Qed.

Lemma listener_eqb_true_iff (a b : string * string) :
  listener_eqb a b = true <-> a = b.
Proof.
  destruct a as [a1 a2], b as [b1 b2]. unfold listener_eqb. cbn [fst snd].
  rewrite andb_true_iff, !String.eqb_eq. split.
  - intros [-> ->]. reflexivity.
  - intros H. injection H as -> ->. auto.
Qed.

Lemma addEventListener_own (type listener : string) (l : Lifecycle) :
  (type, listener) = ("click", "this.onDocumentClick")
  \/ (type, listener) = ("mousedown", "this.onDocumentMouseDown") ->
  own_listeners l -> own_listeners (addEventListener type listener l).
Proof.
  intros Hown [Hnodup Hall]. unfold own_listeners, addEventListener.
  cbn [documentListeners].
  destruct (existsb (listener_eqb (type, listener)) (documentListeners l))
    eqn:Hex.
  - split; assumption.
  - split.
    + apply NoDup_app; [exact Hnodup | repeat constructor; intros [] | ].
      intros x Hx [<-|[]].
      assert (Hfalse : existsb (listener_eqb (type, listener))
                         (documentListeners l) = true).
      { apply existsb_exists. exists (type, listener). split; [exact Hx|].
        apply listener_eqb_true_iff. reflexivity. }
      congruence.
    + apply Forall_app. split; [exact Hall|]. constructor; [|constructor].
      destruct Hown as [<-|<-]; auto.
Qed.

Lemma removeEventListener_own (type listener : string) (l : Lifecycle) :
  own_listeners l -> own_listeners (removeEventListener type listener l).
Proof.
  intros [Hnodup Hall]. unfold own_listeners, removeEventListener.
  cbn [documentListeners]. split.
  - apply NoDup_filter. exact Hnodup.
  - rewrite Forall_forall in Hall |- *. intros x Hx.
    apply filter_In in Hx. apply Hall. tauto.
Qed.

Lemma lifecycleCall_keeps (l : Lifecycle) (c : LifecycleCall) :
  one_subscription l /\ own_listeners l ->
  one_subscription (lifecycleCall l c) /\ own_listeners (lifecycleCall l c).
Proof.
  intros [Hsub Hown]. destruct c as [anchor container|prev anchor container|];
    cbn [lifecycleCall].
  - unfold componentDidMount. split.
    + apply setupPosition_one_subscription. exact Hsub.
    + unfold own_listeners. rewrite setupPosition_listeners.
      apply addEventListener_own; [auto|].
      apply addEventListener_own; [auto|]. exact Hown.
  - unfold componentDidUpdate. destruct (anchorChanged prev anchor).
    + split; [apply setupPosition_one_subscription; exact Hsub|].
      unfold own_listeners. rewrite setupPosition_listeners. exact Hown.
    + split; assumption.
  - unfold componentWillUnmount. split.
    + exact Hsub.
    + apply removeEventListener_own, removeEventListener_own. exact Hown.
Qed.

Lemma lifecycle_from_keeps (calls : list LifecycleCall) (l : Lifecycle) :
  one_subscription l /\ own_listeners l ->
  one_subscription (fold_left lifecycleCall calls l)
  /\ own_listeners (fold_left lifecycleCall calls l).
Proof.
  revert l. induction calls as [|c calls IH]; intros l Hinv.
  - exact Hinv.
  - cbn [fold_left]. apply IH, lifecycleCall_keeps, Hinv.
Qed.

Lemma unmounted_keeps : one_subscription unmounted /\ own_listeners unmounted.
Proof.
  split; [left; reflexivity|]. split; constructor.
Qed.

Example anchor_replaced :
  lifecycle [ DidMount (JsValue 10) (Some 1);
              DidUpdate (JsValue 10) (JsValue 11) (Some 1);
              DidUpdate (JsValue 11) JsNull (Some 1);
              DidUpdate JsNull (JsValue 12) (Some 1) ]
  = {| floatingCleanUp := Some 2;
       subscriptions := [2];
       nextSubscription := 3;
       documentListeners :=
         [ ("click", "this.onDocumentClick");
           ("mousedown", "this.onDocumentMouseDown") ] |}.
Proof. reflexivity. Qed.

(** X20. However React mounts, updates and unmounts the popover, and
    however its anchor changes or disappears in between, at most one
    [autoUpdate] subscription is running at any time, and it is the one
    whose clean-up function [floatingCleanUp] holds: [setupPosition] stops
    the previous one before it starts another. *)
Theorem at_most_one_autoUpdate (calls : list LifecycleCall) :
  subscriptions (lifecycle calls) = []
  \/ exists s,
       subscriptions (lifecycle calls) = [s]
       /\ floatingCleanUp (lifecycle calls) = Some s.
Proof.
  exact (proj1 (lifecycle_from_keeps calls unmounted_keeps)).
Qed.

(** X21. The popover never registers a document listener twice, however
    often it is mounted, and unmounting it leaves no document listener of
    its own behind. *)
Theorem document_listeners_balanced (calls : list LifecycleCall) :
  NoDup (documentListeners (lifecycle calls))
  /\ documentListeners (lifecycle (calls ++ [WillUnmount])) = [].
Proof.
  destruct (lifecycle_from_keeps calls unmounted_keeps)
    as [_ [Hnodup Hall]].
  split; [exact Hnodup|].
  unfold lifecycle in *. rewrite fold_left_app. cbn [fold_left lifecycleCall].
  unfold componentWillUnmount, removeEventListener. cbn [documentListeners].
  induction (documentListeners (fold_left lifecycleCall calls unmounted))
    as [|x rest IH]; [reflexivity|].
  inversion Hall as [|? ? Hx Hrest]; subst.
  inversion Hnodup as [|? ? _ Hnodup']; subst.
  destruct Hx as [->| ->]; cbn; apply IH; assumption.
Qed.

End PopoverLifecycleMore.

(** ** The commit warning banner *)

Section CommitWarningMore.
Import Js VDom CommitWarning.

Example renderIconSwitch_out_of_range :
  renderIconSwitch 2 = Threw VNode (lit "Unexpected icon value 2").
Proof. reflexivity. Qed.

(** X22. [renderIcon]'s switch returns an icon exactly for the run-time
    values of the two members of [CommitWarningIcon] and throws for every
    other number; so the banner always renders, with the class [above]
    exactly when it is displayed above the form, the icon's class following
    the icon, and its children unchanged in the message. *)
Theorem commit_warning_always_renders (props : ICommitWarningProps) :
  (forall n : Z,
     (exists v, renderIconSwitch n = Returned v)
     <-> (exists i, n = iconValue i))
  /\ exists iconElement,
       CommitWarning props
       = Returned
           (VElem "div"
              [ ("className",
                 PStr (if displayingAboveForm props
                       then lit "commit-warning-component above"
                       else lit "commit-warning-component"));
                ("onContextMenu", PRef "ignoreContextMenu") ]
              [ VElem "div"
                  [("className", PStr (lit "warning-icon-container"))]
                  [iconElement];
                VElem "div" [("className", PStr (lit "warning-message"))]
                  (children props) ])
       /\ propOf "className" iconElement
          = Some (PStr match icon props with
                       | Warning => lit "warning-icon"
                       | Information => lit "information-icon"
                       end).
Proof.
  split.
  - intros n. unfold renderIconSwitch. cbn [iconValue].
    destruct (Z.eqb_spec n 0) as [->|H0].
    + split; [exists Warning; reflexivity | eauto].
    + destruct (Z.eqb_spec n 1) as [->|H1].
      * split; [exists Information; reflexivity | eauto].
      * split; [intros [v Hv]; discriminate|].
        intros [[|] ->]; cbn in *; congruence.
  - unfold CommitWarning.
    destruct (icon props); destruct (displayingAboveForm props);
      eexists; split; reflexivity.
Qed.

End CommitWarningMore.

(** ** The delete-remote-branch dialog *)

Section DeleteRemoteBranchMore.
Import Js VDom Models DeleteRemoteBranch.

(** X23. A fresh dialog is enabled. Once submitted it is rendered disabled
    and loading, and it stays so however the deletion settles: the handler
    never sets [isDeleting] back. *)
Theorem dialog_locked_after_submit
    (darwin : bool) (props : IDeleteRemoteBranchProps)
    (settle : Effect -> Settled) :
  let submitted :=
    stateAfter initialState (trace settle (deleteBranch props)) in
  propOf "disabled" (render darwin props initialState) = Some (PBool false)
  /\ propOf "disabled" (render darwin props submitted) = Some (PBool true)
  /\ propOf "loading" (render darwin props submitted) = Some (PBool true).
Proof.
  cbv zeta. unfold trace, stateAfter, deleteBranch. cbn.
  destruct (settle (deleteRemoteBranch (repository props) (branch props)));
    repeat split; reflexivity.
Qed.

End DeleteRemoteBranchMore.

Lemma container_always_fixed_witness :
  VDom.lookupProp "top"
    (Popover.styleOf
       (Popover.containerOf
          (Popover.render Js.integerToString Z.opp VDom.PNum
             {| Popover.trapFocus := None;
                Popover.className := Some (Js.lit "commit-message-avatar");
                Popover.appearEffect := Some Popover.Shake;
                Popover.ariaLabelledby := None;
                Popover.showTip := Some false;
                Popover.minHeight := None;
                Popover.children := [] |}
             {| Popover.position := None |} None)))
  = None
  /\ VDom.lookupProp "left"
       (Popover.styleOf
          (Popover.containerOf
             (Popover.render Js.integerToString Z.opp VDom.PNum
                {| Popover.trapFocus := None;
                   Popover.className := Some (Js.lit "commit-message-avatar");
                   Popover.appearEffect := Some Popover.Shake;
                   Popover.ariaLabelledby := None;
                   Popover.showTip := Some false;
                   Popover.minHeight := None;
                   Popover.children := [] |}
                {| Popover.position := None |} None)))
     = None.
Proof.
  apply (@container_always_fixed Z Js.integerToString Z.opp VDom.PNum
           {| Popover.trapFocus := None;
              Popover.className := Some (Js.lit "commit-message-avatar");
              Popover.appearEffect := Some Popover.Shake;
              Popover.ariaLabelledby := None;
              Popover.showTip := Some false;
              Popover.minHeight := None;
              Popover.children := [] |}
           {| Popover.position := None |} None).
  reflexivity.
Defined.

Section PushPullButtonTexts.
Import Js VDom Models PushPullButton.

Ltac renderButton_variants props :=
  destruct (renderButton_cases props) as
    [ (?p & ?Hprogress & Hrb)
    | [ (?Hprogress & ?Hremote & Hrb)
      | (?remote & ?Hprogress & ?Hremote
         & [ (?Htip & Hrb)
           | [ (?Htip & Hrb)
             | [ (?Hunborn & ?Hdetached & ?Hab & Hrb)
               | (?ab & ?Hunborn & ?Hdetached & ?Hab
                  & [ (?Hzero & Hrb)
                    | (?Hcounts
                       & [ (?Hforce & Hrb)
                         | [ (?Hforce & ?Hbehind & Hrb)
                           | (?Hforce & ?Hbehind & Hrb) ] ]) ]) ] ] ]) ] ];
  rewrite Hrb.

(** X24. A dropdown is only rendered for a repository that has a remote,
    and its items name that remote: their titles are ['Fetch <remote>'],
    followed in the pull variant by ['Force push <remote>']. The text
    ['null'], which the item templates would print for a missing remote
    name, is therefore never shown. *)
Theorem dropdown_items_name_the_remote (props : IPushPullButtonProps) :
  typeOf (renderButton props) = Some "ToolbarDropdown" ->
  exists remote,
    remoteName props = Some remote
    /\ (map itemTitle (dropdownItems (renderButton props))
        = [Some (lit "Fetch " ++ remote)]
        \/ map itemTitle (dropdownItems (renderButton props))
           = [ Some (lit "Fetch " ++ remote);
               Some (lit "Force push " ++ remote) ]).
Proof.
  renderButton_variants props; cbn [typeOf progressButton
    publishRepositoryButton unbornRepositoryButton detachedHeadButton
    fetchButton]; try discriminate; intros _; exists remote;
    (split; [assumption|]);
    unfold publishBranchButton, forcePushButton, pullButton, pushButton,
      dropdownItems, getDropdownContentRenderer, renderDropdownItem,
      getDropdownItemWithType;
    rewrite Hremote; cbn; auto.
Qed.

Lemma dropdown_items_name_the_remote_witness :
  exists remote,
    remoteName Scenarios.diverged = Some remote
    /\ (map itemTitle (dropdownItems (renderButton Scenarios.diverged))
        = [Some (lit "Fetch " ++ remote)]
        \/ map itemTitle (dropdownItems (renderButton Scenarios.diverged))
           = [ Some (lit "Fetch " ++ remote);
               Some (lit "Force push " ++ remote) ]).
Proof.
  apply (dropdown_items_name_the_remote Scenarios.diverged). reflexivity.
Defined.

(** X25. While an operation is in progress the button always shows a
    description: the progress's own when it has a non-empty one, and
    ['Hang on…'] when the description is missing or empty; the tooltip is
    the progress's description as it is. *)
Theorem progress_description_never_empty
    (props : IPushPullButtonProps) (p : Progress) :
  progress props = Some p ->
  exists shown,
    propOf "description" (renderButton props) = Some (PStr shown)
    /\ shown <> []
    /\ shown = match progress_description p with
               | Some (c :: rest) => c :: rest
               | _ => lit "Hang on" ++ [8230%N]
               end
    /\ propOf "tooltip" (renderButton props)
       = Some match progress_description p with
              | Some d => PStr d
              | None => PUndefined
              end.
Proof.
  intros Hprogress. unfold renderButton. rewrite Hprogress.
  exists (descriptionOrHangOn (progress_description p)).
  split; [reflexivity|]. split; [|split].
  - destruct (progress_description p) as [[|c rest]|]; discriminate.
  - destruct (progress_description p) as [[|c rest]|]; reflexivity.
  - unfold progressButton. destruct (progress_description p); reflexivity.
Qed.

Lemma progress_description_never_empty_witness :
  exists shown,
    propOf "description"
      (renderButton
         {| aheadBehind := None;
            remoteName := None;
            networkActionInProgress := true;
            lastFetched := None;
            progress := Some {| progress_title := lit "Pushing to origin";
                                progress_description := Some [];
                                progress_value := 0 |};
            repository :=
              {| repository_identity := 1; gitHubRepository := None |};
            tipState := Unborn;
            pullWithRebase := None;
            rebaseInProgress := false;
            isForcePush := false;
            shouldNudge := false;
            numTagsToPush := 0;
            isDropdownOpen := false |})
    = Some (PStr shown)
    /\ shown <> []
    /\ shown = lit "Hang on" ++ [8230%N]
    /\ propOf "tooltip"
         (renderButton
            {| aheadBehind := None;
               remoteName := None;
               networkActionInProgress := true;
               lastFetched := None;
               progress := Some {| progress_title := lit "Pushing to origin";
                                   progress_description := Some [];
                                   progress_value := 0 |};
               repository :=
                 {| repository_identity := 1; gitHubRepository := None |};
               tipState := Unborn;
               pullWithRebase := None;
               rebaseInProgress := false;
               isForcePush := false;
               shouldNudge := false;
               numTagsToPush := 0;
               isDropdownOpen := false |})
       = Some (PStr []).
Proof.
  apply (progress_description_never_empty
           {| aheadBehind := None;
              remoteName := None;
              networkActionInProgress := true;
              lastFetched := None;
              progress := Some {| progress_title := lit "Pushing to origin";
                                  progress_description := Some [];
                                  progress_value := 0 |};
              repository :=
                {| repository_identity := 1; gitHubRepository := None |};
              tipState := Unborn;
              pullWithRebase := None;
              rebaseInProgress := false;
              isForcePush := false;
              shouldNudge := false;
              numTagsToPush := 0;
              isDropdownOpen := false |}
           (p := {| progress_title := lit "Pushing to origin";
                    progress_description := Some [];
                    progress_value := 0 |})).
  reflexivity.
Defined.

End PushPullButtonTexts.
